(** * The portfolio ledger of the paper-trading engine

    A shallow embedding of [src/trading/portfolio.py] together with the
    pydantic models of [src/models/trade.py] and the enumerations of
    [src/models/base.py].

    Modelling conventions.
    - Python [float] values are modelled as exact rationals ([Qc], canonical
      fractions with Leibniz equality).  Rounding is therefore not modelled;
      a float division whose divisor is zero raises [ZeroDivisionError], as
      in Python.
    - [Order] objects are shared between the caller and [Portfolio.orders]
      and are mutated in place by [execute_order].  They live in an object
      store ([heap]); an order is denoted by its index in that store.
    - A call either returns a value or raises; in both cases the mutations
      performed so far are kept.  This is the monad [M].
    - [datetime.utcnow()] and [uuid.uuid4()] are inputs of the calls that
      use them ([now], [order_id], [trade_id]).
    - The module logger is modelled by the list [console] of emitted
      records; it is not part of the ledger. *)

From Stdlib Require Import QArith Qcanon.
From stdpp Require Import base option list strings gmap numbers.

Local Open Scope Qc_scope.

(** ** Enumerations ([src/models/base.py]) *)

Inductive OrderType := MARKET | LIMIT.
Inductive OrderStatus := PENDING | FILLED | CANCELLED | REJECTED.
Inductive PositionSide := LONG | SHORT | NONE.

#[global] Instance OrderType_eq_dec : EqDecision OrderType.
Proof. solve_decision. Defined.
#[global] Instance OrderStatus_eq_dec : EqDecision OrderStatus.
Proof. solve_decision. Defined.
#[global] Instance PositionSide_eq_dec : EqDecision PositionSide.
Proof. solve_decision. Defined.

Definition datetime := Z.

(** Exceptions that the modelled code can raise. *)
Inductive Exn := ZeroDivisionError | ValidationError | TypeError.

#[global] Instance Exn_eq_dec : EqDecision Exn.
Proof. solve_decision. Defined.

Inductive Outcome (A : Type) :=
| Returned (a : A)
| Raised (e : Exn).
Arguments Returned {A} a.
Arguments Raised {A} e.

(** ** Models ([src/models/trade.py]) *)

Module Order.
Record t := mk {
  order_id : string;
  algorithm_id : string;
  symbol : string;
  order_type : OrderType;
  side : PositionSide;
  quantity : Qc;
  limit_price : option Qc;
  filled_price : option Qc;
  status : OrderStatus;
  created_at : datetime;
  filled_at : option datetime;
  commission : Qc;
  slippage : Qc
}.

(** [Order(...)] as [create_order] calls it: the remaining fields take
    their defaults; pydantic checks [quantity > 0] and, when a limit
    price is given, [limit_price > 0]. *)
Definition new (order_id algorithm_id symbol : string) (order_type : OrderType)
    (side : PositionSide) (quantity : Qc) (limit_price : option Qc)
    (now : datetime) : Outcome t :=
  if bool_decide (0 < quantity)
     && match limit_price with None => true | Some l => bool_decide (0 < l) end
  then Returned (mk order_id algorithm_id symbol order_type side quantity
                    limit_price None PENDING now None 0 0)
  else Raised ValidationError.

Definition set_status (s : OrderStatus) (o : t) : t :=
  mk (order_id o) (algorithm_id o) (symbol o) (order_type o) (side o)
     (quantity o) (limit_price o) (filled_price o) s (created_at o)
     (filled_at o) (commission o) (slippage o).

(** Lines 187-191 of [execute_order]: plain attribute assignments, which
    pydantic does not validate. *)
Definition fill (price : Qc) (now : datetime) (comm slip : Qc) (o : t) : t :=
  mk (order_id o) (algorithm_id o) (symbol o) (order_type o) (side o)
     (quantity o) (limit_price o) (Some price) FILLED (created_at o)
     (Some now) comm slip.
End Order.

Module Position.
Record t := mk {
  symbol : string;
  algorithm_id : string;
  side : PositionSide;
  quantity : Qc;
  average_price : Qc;
  opened_at : option datetime
}.

(** [Position(...)] as [_update_position] calls it.  [quantity] and
    [average_price] are declared [ge=0]; [average_price] is a [float]
    field, so [None] is refused. *)
Definition new (symbol algorithm_id : string) (side : PositionSide)
    (quantity : Qc) (average_price : option Qc)
    (opened_at : option datetime) : Outcome t :=
  match average_price with
  | Some a =>
      if bool_decide (0 <= quantity) && bool_decide (0 <= a)
      then Returned (mk symbol algorithm_id side quantity a opened_at)
      else Raised ValidationError
  | None => Raised ValidationError
  end.

Definition set_quantity (q : Qc) (p : t) : t :=
  mk (symbol p) (algorithm_id p) (side p) q (average_price p) (opened_at p).
Definition set_average_price (a : Qc) (p : t) : t :=
  mk (symbol p) (algorithm_id p) (side p) (quantity p) a (opened_at p).
Definition set_side (s : PositionSide) (p : t) : t :=
  mk (symbol p) (algorithm_id p) s (quantity p) (average_price p) (opened_at p).
End Position.

Module Trade.
Record t := mk {
  trade_id : string;
  algorithm_id : string;
  symbol : string;
  entry_order_id : string;
  entry_price : Qc;
  entry_time : datetime;
  entry_quantity : Qc;
  exit_order_id : option string;
  exit_price : option Qc;
  exit_time : option datetime;
  exit_quantity : option Qc;
  gross_pnl : option Qc;
  net_pnl : option Qc;
  pnl_percent : option Qc;
  total_commission : Qc;
  total_slippage : Qc;
  is_open : bool
}.

Definition opt_pos (x : option Qc) : bool :=
  match x with None => true | Some v => bool_decide (0 < v) end.

(** [Trade(...)] with pydantic's field constraints: [entry_price] and
    [entry_quantity] are [gt=0], [entry_time] is a required [datetime],
    the optional exit price and quantity are [gt=0] when present, and
    both cost totals are [ge=0]. *)
Definition new (trade_id algorithm_id symbol entry_order_id : string)
    (entry_price : Qc) (entry_time : option datetime) (entry_quantity : Qc)
    (exit_order_id : option string) (exit_price : option Qc)
    (exit_time : option datetime) (exit_quantity : option Qc)
    (gross_pnl net_pnl pnl_percent : option Qc)
    (total_commission total_slippage : Qc) (is_open : bool) : Outcome t :=
  match entry_time with
  | Some et =>
      if bool_decide (0 < entry_price) && bool_decide (0 < entry_quantity)
         && opt_pos exit_price && opt_pos exit_quantity
         && bool_decide (0 <= total_commission)
         && bool_decide (0 <= total_slippage)
      then Returned (mk trade_id algorithm_id symbol entry_order_id
                        entry_price et entry_quantity exit_order_id
                        exit_price exit_time exit_quantity gross_pnl net_pnl
                        pnl_percent total_commission total_slippage is_open)
      else Raised ValidationError
  | None => Raised ValidationError
  end.
End Trade.

(** ** Log records *)

Inductive LogLevel := DEBUG | INFO | WARNING | ERROR.

Inductive LogEvent :=
| PortfolioInitialized
| OrderCreated (order_id : string)
| OrderNotPending (order_id : string)
| LimitOrderNoPrice (order_id : string)
| LimitBuyNotExecuted
| LimitSellNotExecuted
| InsufficientCash (order_id : string)
| OrderExecuted (order_id : string)
| SellWithoutPosition (symbol : string)
| EntryOrderNotFound (symbol : string)
| PositionClosed (trade_id : string).

Definition LogRecord : Type := LogLevel * LogEvent.

(** ** The portfolio object and the world around it *)

Abbreviation ref := nat.

Module Portfolio.
Record t := mk {
  initial_capital : Qc;
  cash : Qc;
  commission_rate : Qc;
  slippage_rate : Qc;
  positions : gmap string Position.t;
  orders : list ref;
  trades : list Trade.t;
  peak_value : Qc;
  total_commissions : Qc;
  total_slippage : Qc
}.

Definition set_cash (c : Qc) (p : t) : t :=
  mk (initial_capital p) c (commission_rate p) (slippage_rate p)
     (positions p) (orders p) (trades p) (peak_value p)
     (total_commissions p) (total_slippage p).
Definition set_positions (m : gmap string Position.t) (p : t) : t :=
  mk (initial_capital p) (cash p) (commission_rate p) (slippage_rate p)
     m (orders p) (trades p) (peak_value p)
     (total_commissions p) (total_slippage p).
Definition set_orders (l : list ref) (p : t) : t :=
  mk (initial_capital p) (cash p) (commission_rate p) (slippage_rate p)
     (positions p) l (trades p) (peak_value p)
     (total_commissions p) (total_slippage p).
Definition set_trades (l : list Trade.t) (p : t) : t :=
  mk (initial_capital p) (cash p) (commission_rate p) (slippage_rate p)
     (positions p) (orders p) l (peak_value p)
     (total_commissions p) (total_slippage p).
Definition set_totals (c s : Qc) (p : t) : t :=
  mk (initial_capital p) (cash p) (commission_rate p) (slippage_rate p)
     (positions p) (orders p) (trades p) (peak_value p) c s.
End Portfolio.

Record World := mkWorld {
  heap : list Order.t;
  self : Portfolio.t;
  console : list LogRecord
}.

(** ** The monad of calls: state, and exceptions that keep the state *)

Definition M (A : Type) : Type := World -> Outcome A * World.

Definition ret {A} (a : A) : M A := fun w => (Returned a, w).
Definition raise {A} (e : Exn) : M A := fun w => (Raised e, w).
Definition bind {A B} (m : M A) (k : A -> M B) : M B :=
  fun w =>
    match m w with
    | (Returned a, w') => k a w'
    | (Raised e, w') => (Raised e, w')
    end.

Notation "'let!' x ':=' m 'in' k" := (bind m (fun x => k))
  (at level 10, x name, m at level 100, k at level 200).
Notation "m '>>' k" := (bind m (fun _ => k))
  (at level 100, k at level 200, right associativity).

Definition lift {A} (o : Outcome A) : M A :=
  match o with Returned a => ret a | Raised e => raise e end.
Definition gets {A} (f : World -> A) : M A := fun w => (Returned (f w), w).
Definition modify_self (f : Portfolio.t -> Portfolio.t) : M unit :=
  fun w => (Returned tt, mkWorld (heap w) (f (self w)) (console w)).
Definition modify_heap (f : list Order.t -> list Order.t) : M unit :=
  fun w => (Returned tt, mkWorld (f (heap w)) (self w) (console w)).
Definition log (l : LogLevel) (e : LogEvent) : M unit :=
  fun w => (Returned tt, mkWorld (heap w) (self w) (console w ++ [(l, e)])).

(** Python's [x / y] on floats. *)
Definition fdiv (x y : Qc) : M Qc :=
  if bool_decide (y = 0) then raise ZeroDivisionError else ret (x / y).

(** Arithmetic on an [Optional[float]]: [None] is not a number. *)
Definition the_float (x : option Qc) : M Qc :=
  match x with Some v => ret v | None => raise TypeError end.

(** ** [class Portfolio] *)

(** [f"{algorithm_id}:{symbol}"] *)
Definition position_key (algorithm_id symbol : string) : string :=
  algorithm_id +:+ ":" +:+ symbol.

(** [Portfolio.__init__] *)
Definition init (initial_capital commission_rate slippage_rate : Qc) : World :=
  mkWorld []
    (Portfolio.mk initial_capital initial_capital commission_rate slippage_rate
       ∅ [] [] initial_capital 0 0)
    [(INFO, PortfolioInitialized)].

(** [Portfolio.get_position] *)
Definition get_position (symbol algorithm_id : string) (w : World)
    : option Position.t :=
  Portfolio.positions (self w) !! position_key algorithm_id symbol.

(** [Portfolio.create_order]; returns the new order (its reference). *)
Definition create_order (order_id : string) (now : datetime)
    (symbol algorithm_id : string) (side : PositionSide) (quantity : Qc)
    (order_type : OrderType) (limit_price : option Qc) : M ref :=
  let! order := lift (Order.new order_id algorithm_id symbol order_type side
                        quantity limit_price now) in
  let! r := gets (fun w => length (heap w)) in
  modify_heap (fun h => h ++ [order]) >>
  modify_self (fun p => Portfolio.set_orders (Portfolio.orders p ++ [r]) p) >>
  log INFO (OrderCreated order_id) >>
  ret r.

(** The entry-order test of the loop in [_close_position]. *)
Definition is_entry_for (position : Position.t) (order : Order.t) : bool :=
  bool_decide (Order.symbol order = Position.symbol position)
  && bool_decide (Order.algorithm_id order = Position.algorithm_id position)
  && bool_decide (Order.side order = LONG)
  && bool_decide (Order.status order = FILLED).

(** The objects that [self.orders] holds, in list order. *)
Definition order_history (w : World) : list Order.t :=
  omap (fun r : ref => heap w !! r) (Portfolio.orders (self w)).

(** [for order in reversed(self.orders): if ...: entry_order = order; break] *)
Definition find_entry_order (position : Position.t) (w : World)
    : option Order.t :=
  List.find (is_entry_for position) (reverse (order_history w)).

(** [Portfolio._close_position].  The orders and the position are only
    read, so they are passed as values. *)
Definition _close_position (trade_id : string) (exit_order : Order.t)
    (position : Position.t) : M unit :=
  let! entry := gets (find_entry_order position) in
  match entry with
  | None =>
      log WARNING (EntryOrderNotFound (Position.symbol position)) >>
      ret tt
  | Some entry_order =>
      let! exit_price := the_float (Order.filled_price exit_order) in
      let gross_pnl :=
        (exit_price - Position.average_price position)
        * Position.quantity position in
      let net_pnl :=
        gross_pnl
        - (Order.commission entry_order + Order.commission exit_order
           + Order.slippage entry_order + Order.slippage exit_order) in
      let! ratio :=
        fdiv gross_pnl
          (Position.average_price position * Position.quantity position) in
      let pnl_percent := ratio * Qc_of_Z 100 in
      let! trade :=
        lift (Trade.new trade_id
                (Position.algorithm_id position)
                (Position.symbol position)
                (Order.order_id entry_order)
                (Position.average_price position)
                (Order.filled_at entry_order)
                (Position.quantity position)
                (Some (Order.order_id exit_order))
                (Order.filled_price exit_order)
                (Order.filled_at exit_order)
                (Some (Position.quantity position))
                (Some gross_pnl) (Some net_pnl) (Some pnl_percent)
                (Order.commission entry_order + Order.commission exit_order)
                (Order.slippage entry_order + Order.slippage exit_order)
                false) in
      modify_self (fun p => Portfolio.set_trades (Portfolio.trades p ++ [trade]) p) >>
      log INFO (PositionClosed trade_id) >>
      ret tt
  end.

(** [self.positions[key] = v], also used for the in-place mutation of the
    position object that the book holds under [key]. *)
Definition store_position (key : string) (v : Position.t) : M unit :=
  modify_self (fun p =>
    Portfolio.set_positions (<[key := v]> (Portfolio.positions p)) p).

(** [del self.positions[key]] *)
Definition del_position (key : string) : M unit :=
  modify_self (fun p =>
    Portfolio.set_positions (delete key (Portfolio.positions p)) p).

(** [Portfolio._update_position].  [order] is only read. *)
Definition _update_position (trade_id : string) (order : Order.t) : M unit :=
  let key := position_key (Order.algorithm_id order) (Order.symbol order) in
  let! position := gets (fun w => Portfolio.positions (self w) !! key) in
  match Order.side order with
  | LONG =>
      match position with
      | None =>
          let! fresh :=
            lift (Position.new (Order.symbol order) (Order.algorithm_id order)
                    LONG (Order.quantity order) (Order.filled_price order)
                    (Order.filled_at order)) in
          store_position key fresh
      | Some position =>
          let! filled_price := the_float (Order.filled_price order) in
          let total_cost :=
            Position.average_price position * Position.quantity position
            + filled_price * Order.quantity order in
          let position :=
            Position.set_quantity
              (Position.quantity position + Order.quantity order) position in
          store_position key position >>
          let! average := fdiv total_cost (Position.quantity position) in
          let position := Position.set_average_price average position in
          store_position key position >>
          store_position key (Position.set_side LONG position)
      end
  | SHORT =>
      match position with
      | None =>
          log WARNING (SellWithoutPosition (Order.symbol order)) >>
          ret tt
      | Some position =>
          let position :=
            Position.set_quantity
              (Position.quantity position - Order.quantity order) position in
          store_position key position >>
          if bool_decide (Position.quantity position <= 0) then
            _close_position trade_id order position >>
            del_position key
          else ret tt
      end
  | NONE => ret tt
  end.

(** Lines 167-211 of [execute_order]: the fill, reached once the pending
    and limit checks have passed.  [r] is the order object, [order] its
    value on entry. *)
Definition fill_order (now : datetime) (trade_id : string) (r : ref)
    (order : Order.t) (current_price : Qc) : M bool :=
  let! slippage_rate := gets (fun w => Portfolio.slippage_rate (self w)) in
  let! commission_rate := gets (fun w => Portfolio.commission_rate (self w)) in
  let! cash := gets (fun w => Portfolio.cash (self w)) in
  let slippage_amount := current_price * slippage_rate in
  let execution_price :=
    if bool_decide (Order.side order = LONG)
    then current_price + slippage_amount
    else current_price - slippage_amount in
  let trade_value := execution_price * Order.quantity order in
  let commission := trade_value * commission_rate in
  if bool_decide (Order.side order = LONG)
     && bool_decide (cash < trade_value + commission)
  then
    log WARNING (InsufficientCash (Order.order_id order)) >>
    modify_heap (alter (Order.set_status REJECTED) r) >>
    ret false
  else
    let order :=
      Order.fill execution_price now commission
        (slippage_amount * Order.quantity order) order in
    modify_heap (fun h => <[r := order]> h) >>
    modify_self (fun p =>
      Portfolio.set_totals
        (Portfolio.total_commissions p + commission)
        (Portfolio.total_slippage p + Order.slippage order) p) >>
    _update_position trade_id order >>
    modify_self (fun p =>
      Portfolio.set_cash
        (if bool_decide (Order.side order = LONG)
         then Portfolio.cash p - (trade_value + commission)
         else Portfolio.cash p + (trade_value - commission)) p) >>
    log INFO (OrderExecuted (Order.order_id order)) >>
    ret true.

(** [Portfolio.execute_order].  A reference that denotes no object cannot
    be passed in Python; the model then returns [False] without effect. *)
Definition execute_order (now : datetime) (trade_id : string) (r : ref)
    (current_price : Qc) : M bool :=
  let! target := gets (fun w => heap w !! r) in
  match target with
  | None => ret false
  | Some order =>
      if bool_decide (Order.status order <> PENDING) then
        log WARNING (OrderNotPending (Order.order_id order)) >>
        ret false
      else if bool_decide (Order.order_type order = LIMIT) then
        match Order.limit_price order with
        | None =>
            log ERROR (LimitOrderNoPrice (Order.order_id order)) >>
            modify_heap (alter (Order.set_status REJECTED) r) >>
            ret false
        | Some limit_price =>
            if bool_decide (Order.side order = LONG)
               && bool_decide (limit_price < current_price)
            then log DEBUG LimitBuyNotExecuted >> ret false
            else if bool_decide (Order.side order = SHORT)
                    && bool_decide (current_price < limit_price)
            then log DEBUG LimitSellNotExecuted >> ret false
            else fill_order now trade_id r order current_price
        end
      else fill_order now trade_id r order current_price
  end.

(** ** Test scaffolding: concrete numbers and straight-line sessions *)

Definition dec (n : Z) (d : positive) : Qc := Q2Qc (n # d).

(** Runs a call and keeps the world, whether it returned or raised. *)
Definition after {A} (m : M A) (w : World) : World := snd (m w).
Definition outcome {A} (m : M A) (w : World) : Outcome A := fst (m w).

(** The pending and limit checks of [execute_order] let the order through
    to the fill: a market order always, a limit order when it carries a
    limit price that the current price satisfies. *)
Definition gate_open (order : Order.t) (current_price : Qc) : Prop :=
  Order.order_type order = MARKET
  \/ exists limit_price,
       Order.limit_price order = Some limit_price
       /\ (Order.side order = LONG -> current_price <= limit_price)
       /\ (Order.side order = SHORT -> limit_price <= current_price).

(** What [execute_order] computes at lines 168-176. *)
Definition execution_price (w : World) (order : Order.t) (current_price : Qc) : Qc :=
  if bool_decide (Order.side order = LONG)
  then current_price + current_price * Portfolio.slippage_rate (self w)
  else current_price - current_price * Portfolio.slippage_rate (self w).
Definition trade_value (w : World) (order : Order.t) (current_price : Qc) : Qc :=
  execution_price w order current_price * Order.quantity order.
Definition commission_due (w : World) (order : Order.t) (current_price : Qc) : Qc :=
  trade_value w order current_price * Portfolio.commission_rate (self w).

(** A client of the engine: the calls of the public interface that the
    claims speak about.  A call that raises leaves its partial effects
    behind and the session goes on. *)
Inductive Call :=
| CreateOrder (order_id : string) (now : datetime) (symbol algorithm_id : string)
    (side : PositionSide) (quantity : Qc) (order_type : OrderType)
    (limit_price : option Qc)
| ExecuteOrder (now : datetime) (trade_id : string) (order : ref)
    (current_price : Qc).

Definition perform (c : Call) (w : World) : World :=
  match c with
  | CreateOrder order_id now symbol algorithm_id side quantity order_type limit_price =>
      after (create_order order_id now symbol algorithm_id side quantity
               order_type limit_price) w
  | ExecuteOrder now trade_id order current_price =>
      after (execute_order now trade_id order current_price) w
  end.

Definition session (calls : list Call) (w : World) : World :=
  foldl (fun w c => perform c w) w calls.

(** The price that a call supplies, if it supplies one. *)
Definition price_nonneg (c : Call) : Prop :=
  match c with
  | CreateOrder _ _ _ _ _ _ _ _ => True
  | ExecuteOrder _ _ _ current_price => 0 <= current_price
  end.

(** A run of fills handed to the position book one after the other. *)
Fixpoint apply_fills (trade_id : string) (orders : list Order.t) : M unit :=
  match orders with
  | [] => ret tt
  | order :: rest => _update_position trade_id order >> apply_fills trade_id rest
  end.

Definition fill_price (order : Order.t) : Qc :=
  default 0 (Order.filled_price order).

(** [Σ qi] and [Σ qi·pi] over a run of fills. *)
Definition sum_quantity (orders : list Order.t) : Qc :=
  foldr (fun o acc => Order.quantity o + acc) 0 orders.
Definition sum_cost (orders : list Order.t) : Qc :=
  foldr (fun o acc => Order.quantity o * fill_price o + acc) 0 orders.

(** A filled buy for the pair [(algorithm_id, symbol)]. *)
Definition buy_fill_for (algorithm_id symbol : string) (order : Order.t) : Prop :=
  Order.side order = LONG
  /\ Order.algorithm_id order = algorithm_id
  /\ Order.symbol order = symbol
  /\ 0 < Order.quantity order
  /\ exists p, Order.filled_price order = Some p /\ 0 <= p.

(** The identity that a trade record is claimed to satisfy. *)
Definition net_pnl_identity (t : Trade.t) : Prop :=
  exists gross net,
    Trade.gross_pnl t = Some gross
    /\ Trade.net_pnl t = Some net
    /\ net = gross - Trade.total_commission t - Trade.total_slippage t.

(** Everything of the portfolio except the position book. *)
Definition same_ledger_but_positions (p q : Portfolio.t) : Prop :=
  Portfolio.initial_capital p = Portfolio.initial_capital q
  /\ Portfolio.cash p = Portfolio.cash q
  /\ Portfolio.commission_rate p = Portfolio.commission_rate q
  /\ Portfolio.slippage_rate p = Portfolio.slippage_rate q
  /\ Portfolio.orders p = Portfolio.orders q
  /\ Portfolio.trades p = Portfolio.trades q
  /\ Portfolio.total_commissions p = Portfolio.total_commissions q
  /\ Portfolio.total_slippage p = Portfolio.total_slippage q.

(** ** Concrete scenarios *)

(** Capital 100, commission 0.1%, slippage 0.05%; one pending market sell
    of 1 AAPL for "algo", and no position. *)
Definition naked_sell_world : World :=
  after (create_order "ORD-1" 1%Z "AAPL" "algo" SHORT (dec 1 1) MARKET None)
        (init (dec 100 1) (dec 1 1000) (dec 5 10000)).

(** Capital 1000 without costs; "algo" has bought 5 AAPL at 100 (order 0)
    and has placed a market sell of the same 5 shares (order 1). *)
Definition round_trip_calls : list Call :=
  [CreateOrder "ORD-1" 1%Z "AAPL" "algo" LONG (dec 5 1) MARKET None;
   ExecuteOrder 2%Z "TRADE-0" 0%nat (dec 100 1);
   CreateOrder "ORD-2" 3%Z "AAPL" "algo" SHORT (dec 5 1) MARKET None].
Definition round_trip_world : World :=
  session round_trip_calls (init (dec 1000 1) 0 0).

(** The same session with commission 0.1% and slippage 0.05%. *)
Definition costly_round_trip_world : World :=
  after (create_order "ORD-2" 3%Z "AAPL" "algo" SHORT (dec 5 1) MARKET None)
    (after (execute_order 2%Z "TRADE-0" 0%nat (dec 100 1))
       (after (create_order "ORD-1" 1%Z "AAPL" "algo" LONG (dec 5 1) MARKET None)
          (init (dec 1000 1) (dec 1 1000) (dec 5 10000)))).

(** The sell of [round_trip_world] once filled at 130, and the position
    that it closes as it stood before the sell. *)
Definition exit_at_130 : Order.t :=
  Order.mk "ORD-2" "algo" "AAPL" MARKET SHORT (dec 5 1) None (Some (dec 130 1))
    FILLED 3%Z (Some 4%Z) 0 0.
Definition five_at_100 : Position.t :=
  Position.mk "AAPL" "algo" LONG (dec 5 1) (dec 100 1) (Some 2%Z).

(** Two filled buys of "algo" in AAPL: 5 at 100, then 5 at 120. *)
Definition filled_buy (quantity price : Qc) : Order.t :=
  Order.mk "ORD" "algo" "AAPL" MARKET LONG quantity None (Some price)
    FILLED 0%Z (Some 0%Z) 0 0.
Definition two_buys : list Order.t :=
  [filled_buy (dec 5 1) (dec 100 1); filled_buy (dec 5 1) (dec 120 1)].

(** Strategy "a" buys 5 of symbol "b:c" at 100 (order 0); strategy "a:b"
    has a pending buy of 2 of symbol "c" (order 1). *)
Definition colliding_world : World :=
  after (create_order "ORD-2" 3%Z "c" "a:b" LONG (dec 2 1) MARKET None)
    (after (execute_order 2%Z "TRADE-0" 0%nat (dec 100 1))
       (after (create_order "ORD-1" 1%Z "b:c" "a" LONG (dec 5 1) MARKET None)
          (init (dec 1000 1) 0 0))).

(** ** Invariants of a session *)

(** Every order object is in [self.orders]: orders are made by
    [create_order] only. *)
Definition all_orders_listed (w : World) : Prop :=
  forall r : nat, (r < length (heap w))%nat -> r ∈ Portfolio.orders (self w).

(** Every position of the book has a filled buy of its own strategy and
    symbol in the order history. *)
Definition positions_have_entries (w : World) : Prop :=
  forall (k : string) (p : Position.t),
    Portfolio.positions (self w) !! k = Some p ->
    exists e, e ∈ order_history w /\ is_entry_for p e = true.

(** Pydantic's [quantity > 0] on every order. *)
Definition quantities_positive (w : World) : Prop :=
  forall (r : nat) (o : Order.t), heap w !! r = Some o -> 0 < Order.quantity o.

(** The position [p'] is the position [p] as far as its owner is
    concerned. *)
Definition same_owner (p' p : Position.t) : Prop :=
  Position.symbol p' = Position.symbol p
  /\ Position.algorithm_id p' = Position.algorithm_id p.

(** The order [o'] is the order [o] but for the fields that a fill or a
    rejection sets. *)
Definition same_request (o' o : Order.t) : Prop :=
  Order.symbol o' = Order.symbol o
  /\ Order.algorithm_id o' = Order.algorithm_id o
  /\ Order.side o' = Order.side o
  /\ Order.quantity o' = Order.quantity o.

(** What a call of [execute_order] on the order [r] may change. *)
Definition execution_effect (r : nat) (w w' : World) : Prop :=
  Portfolio.orders (self w') = Portfolio.orders (self w)
  /\ Portfolio.commission_rate (self w') = Portfolio.commission_rate (self w)
  /\ Portfolio.slippage_rate (self w') = Portfolio.slippage_rate (self w)
  /\ length (heap w') = length (heap w)
  /\ (forall r2 : nat, r2 <> r -> heap w' !! r2 = heap w !! r2)
  /\ (forall o, heap w !! r = Some o -> Order.status o <> PENDING ->
        heap w' !! r = Some o)
  /\ (forall o', heap w' !! r = Some o' ->
        exists o, heap w !! r = Some o /\ same_request o' o)
  /\ (forall (k : string) p', Portfolio.positions (self w') !! k = Some p' ->
        (exists p, Portfolio.positions (self w) !! k = Some p /\ same_owner p' p)
        \/ (exists o', heap w' !! r = Some o' /\ is_entry_for p' o' = true)).

Definition session_invariant (w : World) : Prop :=
  all_orders_listed w /\ positions_have_entries w /\ quantities_positive w.

(** A commission rate of 200%: capital 100, and a market sell of 100
    shares executed at 10. *)
Definition ruinous_commission_calls : list Call :=
  [CreateOrder "ORD-1" 1%Z "AAPL" "algo" SHORT (dec 100 1) MARKET None;
   ExecuteOrder 2%Z "TRADE-0" 0%nat (dec 10 1)].

(** Capital 1000 without costs and three pending LIMIT orders of "algo":
    a buy of 5 AAPL with limit 100 (order 0), a sell of 5 AAPL with limit
    100 (order 1), and order 2, a LIMIT buy whose limit price was left
    out. *)
Definition limit_calls : list Call :=
  [CreateOrder "ORD-1" 1%Z "AAPL" "algo" LONG (dec 5 1) LIMIT (Some (dec 100 1));
   CreateOrder "ORD-2" 2%Z "AAPL" "algo" SHORT (dec 5 1) LIMIT (Some (dec 100 1));
   CreateOrder "ORD-3" 3%Z "AAPL" "algo" LONG (dec 5 1) LIMIT None].
Definition limit_world : World := session limit_calls (init (dec 1000 1) 0 0).
Definition limit_buy : Order.t :=
  Order.mk "ORD-1" "algo" "AAPL" LIMIT LONG (dec 5 1) (Some (dec 100 1)) None
    PENDING 1%Z None 0 0.

(** ** Valuation and reset ([src/models/performance.py], [portfolio.py]) *)

Module PortfolioSnapshot.
Record t := mk {
  timestamp : datetime;
  cash : Qc;
  positions_value : Qc;
  total_value : Qc;
  total_pnl : Qc;
  total_pnl_percent : Qc;
  num_positions : nat
}.

(** [PortfolioSnapshot(...)]: [cash] and [positions_value] are declared
    [ge=0] and [total_value] is declared [gt=0]; [num_positions] is a
    length, so its [ge=0] always holds. *)
Definition new (timestamp : datetime)
    (cash positions_value total_value total_pnl total_pnl_percent : Qc)
    (num_positions : nat) : Outcome t :=
  if bool_decide (0 <= cash) && bool_decide (0 <= positions_value)
     && bool_decide (0 < total_value)
  then Returned (mk timestamp cash positions_value total_value total_pnl
                    total_pnl_percent num_positions)
  else Raised ValidationError.
End PortfolioSnapshot.

(** [self.positions.values()].  A Python dict yields its values in
    insertion order, the map in the order of its keys; the loops below
    only add numbers up and count, which no order changes in exact
    arithmetic. *)
Definition position_values (w : World) : list Position.t :=
  (map_to_list (Portfolio.positions (self w))).*2.

(** The body of the loops of [get_total_value] and [get_snapshot]:
    [if position.quantity > 0 and position.symbol in current_prices:
       positions_value += position.quantity * current_prices[position.symbol]] *)
Definition add_priced (current_prices : gmap string Qc) (positions_value : Qc)
    (position : Position.t) : Qc :=
  if bool_decide (0 < Position.quantity position) then
    match current_prices !! Position.symbol position with
    | Some price => positions_value + Position.quantity position * price
    | None => positions_value
    end
  else positions_value.

Definition positions_value (current_prices : gmap string Qc) (w : World) : Qc :=
  foldl (add_priced current_prices) 0 (position_values w).

(** [Portfolio.get_total_value] *)
Definition get_total_value (current_prices : gmap string Qc) (w : World) : Qc :=
  Portfolio.cash (self w) + positions_value current_prices w.

Definition set_peak_value (v : Qc) (p : Portfolio.t) : Portfolio.t :=
  Portfolio.mk (Portfolio.initial_capital p) (Portfolio.cash p)
    (Portfolio.commission_rate p) (Portfolio.slippage_rate p)
    (Portfolio.positions p) (Portfolio.orders p) (Portfolio.trades p) v
    (Portfolio.total_commissions p) (Portfolio.total_slippage p).

(** [len([p for p in self.positions.values() if p.quantity > 0])] *)
Definition open_positions (w : World) : nat :=
  length (filter (fun p => 0 < Position.quantity p) (position_values w)).

(** [Portfolio.get_snapshot]; [now] is the [timestamp] that the model's
    default factory draws. *)
Definition get_snapshot (now : datetime) (current_prices : gmap string Qc)
    : M PortfolioSnapshot.t :=
  let! value := gets (positions_value current_prices) in
  let! cash := gets (fun w => Portfolio.cash (self w)) in
  let! initial_capital := gets (fun w => Portfolio.initial_capital (self w)) in
  let total_value := cash + value in
  let total_pnl := total_value - initial_capital in
  let! ratio := fdiv total_pnl initial_capital in
  let total_pnl_percent := ratio * Qc_of_Z 100 in
  let! peak_value := gets (fun w => Portfolio.peak_value (self w)) in
  (if bool_decide (peak_value < total_value)
   then modify_self (set_peak_value total_value)
   else ret tt) >>
  let! count := gets open_positions in
  lift (PortfolioSnapshot.new now cash value total_value total_pnl
          total_pnl_percent count).

(** [p.current_price or p.average_price].  [Position.t] carries the
    fields that the ledger writes; [current_price], which the ledger
    declares but never assigns, is read through [current_price].  Python's
    [or] falls through on [None] and on [0.0]. *)
Definition mark (current_price : Position.t -> option Qc) (p : Position.t) : Qc :=
  match current_price p with
  | Some c => if bool_decide (c = 0) then Position.average_price p else c
  | None => Position.average_price p
  end.

(** [sum(p.quantity * (...) for p in self.positions.values() if p.quantity > 0)] *)
Definition marked_value (current_price : Position.t -> option Qc) (w : World) : Qc :=
  foldl (fun acc p => acc + Position.quantity p * mark current_price p) 0
    (filter (fun p => 0 < Position.quantity p) (position_values w)).

(** [min(drawdown, 0.0)] *)
Definition min_with_zero (drawdown : Qc) : Qc :=
  if bool_decide (0 < drawdown) then 0 else drawdown.

(** [Portfolio.get_max_drawdown] *)
Definition get_max_drawdown (current_price : Position.t -> option Qc) : M Qc :=
  let! peak_value := gets (fun w => Portfolio.peak_value (self w)) in
  if bool_decide (peak_value <= 0) then ret 0
  else
    let! cash := gets (fun w => Portfolio.cash (self w)) in
    let! marked := gets (marked_value current_price) in
    let current_value := cash + marked in
    let! ratio := fdiv (current_value - peak_value) peak_value in
    ret (min_with_zero (ratio * Qc_of_Z 100)).

(** [Portfolio.reset].  The order objects live on; the portfolio forgets
    them.  (Its log line has no [LogEvent] and is not recorded.) *)
Definition reset : M unit :=
  modify_self (fun p =>
    Portfolio.mk (Portfolio.initial_capital p) (Portfolio.initial_capital p)
      (Portfolio.commission_rate p) (Portfolio.slippage_rate p)
      ∅ [] [] (Portfolio.initial_capital p) 0 0).

(** Sums over the order objects. *)
Definition sum_commissions (orders : list Order.t) : Qc :=
  foldr (fun o acc => Order.commission o + acc) 0 orders.
Definition sum_slippages (orders : list Order.t) : Qc :=
  foldr (fun o acc => Order.slippage o + acc) 0 orders.

(** An order that has not been filled carries no cost. *)
Definition unfilled_orders_cost_nothing (w : World) : Prop :=
  forall (r : nat) (o : Order.t), heap w !! r = Some o ->
    Order.status o <> FILLED ->
    Order.commission o = 0 /\ Order.slippage o = 0.

(** The cost counters agree with the order objects. *)
Definition counters_match_orders (w : World) : Prop :=
  Portfolio.total_commissions (self w) = sum_commissions (heap w)
  /\ Portfolio.total_slippage (self w) = sum_slippages (heap w).

(** No filled buy of the position's strategy and symbol is in the order
    history. *)
Definition no_entry_for (p : Position.t) (w : World) : Prop :=
  forall e, e ∈ order_history w -> is_entry_for p e = false.


(** ** Fills *)

(** The fill of lines 187-191. *)
Definition filled (now : datetime) (w : World) (o : Order.t) (price : Qc) : Order.t :=
  Order.fill (execution_price w o price) now (commission_due w o price)
    (price * Portfolio.slippage_rate (self w) * Order.quantity o) o.

(** Capital 1000, commission 0.1%, slippage 0.05%; "algo" has a pending
    market buy of 5 AAPL (order 0). *)
Definition first_buy_world : World :=
  after (create_order "ORD-1" 1%Z "AAPL" "algo" LONG (dec 5 1) MARKET None)
    (init (dec 1000 1) (dec 1 1000) (dec 5 10000)).
Definition first_buy : Order.t :=
  Order.mk "ORD-1" "algo" "AAPL" MARKET LONG (dec 5 1) None None PENDING 1%Z
    None 0 0.

(** The buy was filled at 100 (execution price 100.05); "algo" has placed
    market sells of 2 shares (order 1) and of 6 shares (order 2). *)
Definition holding_calls : list Call :=
  [CreateOrder "ORD-1" 1%Z "AAPL" "algo" LONG (dec 5 1) MARKET None;
   ExecuteOrder 2%Z "TRADE-0" 0%nat (dec 100 1);
   CreateOrder "ORD-2" 3%Z "AAPL" "algo" SHORT (dec 2 1) MARKET None;
   CreateOrder "ORD-3" 4%Z "AAPL" "algo" SHORT (dec 6 1) MARKET None].
Definition holding_world : World :=
  session holding_calls (init (dec 1000 1) (dec 1 1000) (dec 5 10000)).
Definition held_position : Position.t :=
  Position.mk "AAPL" "algo" LONG (dec 5 1)
    (dec 100 1 + dec 100 1 * dec 5 10000) (Some 2%Z).
Definition sell_of_2 : Order.t :=
  Order.mk "ORD-2" "algo" "AAPL" MARKET SHORT (dec 2 1) None None PENDING 3%Z
    None 0 0.
Definition sell_of_6 : Order.t :=
  Order.mk "ORD-3" "algo" "AAPL" MARKET SHORT (dec 6 1) None None PENDING 4%Z
    None 0 0.

(** A buy placed before a [reset] and executed after it: the position it
    opens has no entry in the order history.  Order 1 then sells the 5
    shares. *)
Definition forgotten_entry_world : World :=
  after (create_order "ORD-2" 4%Z "AAPL" "algo" SHORT (dec 5 1) MARKET None)
    (after (execute_order 3%Z "TRADE-0" 0%nat (dec 100 1))
       (after reset first_buy_world)).
Definition sell_of_5 : Order.t :=
  Order.mk "ORD-2" "algo" "AAPL" MARKET SHORT (dec 5 1) None None PENDING 4%Z
    None 0 0.

(** What one position adds to the positions value. *)
Definition contribution (current_prices : gmap string Qc) (p : Position.t) : Qc :=
  add_priced current_prices 0 p.
Definition total_contribution (current_prices : gmap string Qc)
    (ps : list Position.t) : Qc :=
  foldr (fun p acc => contribution current_prices p + acc) 0 ps.

(** Every supplied price is non-negative. *)
Definition prices_nonneg (current_prices : gmap string Qc) : Prop :=
  forall (s : string) (price : Qc), current_prices !! s = Some price -> 0 <= price.

(** Capital 100 without costs, all of it spent on 1 AAPL at 100. *)
Definition all_in_calls : list Call :=
  [CreateOrder "ORD-1" 1%Z "AAPL" "algo" LONG (dec 1 1) MARKET None;
   ExecuteOrder 2%Z "TRADE-0" 0%nat (dec 100 1)].

(** The buy of [first_buy_world] was filled at 100; "algo" has placed a
    second buy, of 3 shares (order 1), and an order without a side, of 1
    share (order 2). *)
Definition second_buy_calls : list Call :=
  [CreateOrder "ORD-1" 1%Z "AAPL" "algo" LONG (dec 5 1) MARKET None;
   ExecuteOrder 2%Z "TRADE-0" 0%nat (dec 100 1);
   CreateOrder "ORD-2" 3%Z "AAPL" "algo" LONG (dec 3 1) MARKET None;
   CreateOrder "ORD-3" 4%Z "AAPL" "algo" NONE (dec 1 1) MARKET None].
Definition second_buy_world : World :=
  session second_buy_calls (init (dec 1000 1) (dec 1 1000) (dec 5 10000)).
Definition buy_of_3 : Order.t :=
  Order.mk "ORD-2" "algo" "AAPL" MARKET LONG (dec 3 1) None None PENDING 3%Z
    None 0 0.
Definition sideless_order : Order.t :=
  Order.mk "ORD-3" "algo" "AAPL" MARKET NONE (dec 1 1) None None PENDING 4%Z
    None 0 0.

(** ** The caller: [TradingSystem.execute_signals] ([main.py]) *)

Inductive SignalType := BUY | SELL | HOLD.

(** What [execute_signals] reads of a signal and of a ticker (the signal
    model's own file is not among the sources). *)
Module Signal.
Record t := mk {
  algorithm_id : string;
  symbol : string;
  signal_type : SignalType
}.
End Signal.

Module Ticker.
Record t := mk {
  symbol : string;
  price : Qc
}.
End Ticker.

(** The lines that [execute_signals] itself logs. *)
Inductive MainEvent :=
| Bought (quantity : Z) (symbol : string) (price : Qc)
| BuyFailed (symbol : string)
| Sold (quantity : Qc) (symbol : string) (price : Qc)
| SellFailed (symbol : string).

(** The trading system as far as [execute_signals] goes: the portfolio
    with its order objects and log, and the lines of [main.py]. *)
Record System := mkSystem {
  ledger : World;
  journal : list (LogLevel * MainEvent)
}.

(** What handling one signal draws from [uuid4] and the clock. *)
Record Draws := mkDraws {
  order_id : string;
  created : datetime;
  executed : datetime;
  trade_id : string
}.

Definition on_ledger {A} (m : M A) (s : System) : Outcome A * System :=
  let (res, w) := m (ledger s) in (res, mkSystem w (journal s)).
Definition note (l : LogLevel) (e : MainEvent) (s : System) : System :=
  mkSystem (ledger s) (journal s ++ [(l, e)]).

(** Python's [int] on a float: the integer part, rounding towards zero. *)
Definition int_of (x : Qc) : Z := Z.quot (Qnum (this x)) (Zpos (Qden (this x))).

(** The body of the loop of [execute_signals] for one signal. *)
Definition execute_signal (max_position_size : Qc)
    (tickers : gmap string Ticker.t) (signal : Signal.t) (d : Draws)
    (s : System) : Outcome unit * System :=
  match tickers !! Signal.symbol signal with
  | None => (Returned tt, s)
  | Some ticker =>
      let current_price := Ticker.price ticker in
      let position :=
        get_position (Signal.symbol signal) (Signal.algorithm_id signal)
          (ledger s) in
      match Signal.signal_type signal with
      | BUY =>
          if match position with
             | None => true
             | Some p => bool_decide (Position.quantity p = 0)
             end
          then
            let max_investment :=
              Portfolio.cash (self (ledger s)) * max_position_size in
            if bool_decide (current_price = 0)
            then (Raised ZeroDivisionError, s)
            else
              let quantity := int_of (max_investment / current_price) in
              if bool_decide (0 < quantity)%Z then
                match on_ledger
                        (create_order (order_id d) (created d)
                           (Signal.symbol signal) (Signal.algorithm_id signal)
                           LONG (Qc_of_Z quantity) MARKET None) s with
                | (Raised e, s1) => (Raised e, s1)
                | (Returned order, s1) =>
                    match on_ledger
                            (execute_order (executed d) (trade_id d) order
                               current_price) s1 with
                    | (Raised e, s2) => (Raised e, s2)
                    | (Returned true, s2) =>
                        (Returned tt,
                         note INFO (Bought quantity (Signal.symbol signal)
                                      current_price) s2)
                    | (Returned false, s2) =>
                        (Returned tt,
                         note WARNING (BuyFailed (Signal.symbol signal)) s2)
                    end
                end
              else (Returned tt, s)
          else (Returned tt, s)
      | SELL =>
          match position with
          | Some p =>
              if bool_decide (0 < Position.quantity p) then
                match on_ledger
                        (create_order (order_id d) (created d)
                           (Signal.symbol signal) (Signal.algorithm_id signal)
                           SHORT (Position.quantity p) MARKET None) s with
                | (Raised e, s1) => (Raised e, s1)
                | (Returned order, s1) =>
                    match on_ledger
                            (execute_order (executed d) (trade_id d) order
                               current_price) s1 with
                    | (Raised e, s2) => (Raised e, s2)
                    | (Returned true, s2) =>
                        (Returned tt,
                         note INFO (Sold (Position.quantity p)
                                      (Signal.symbol signal) current_price) s2)
                    | (Returned false, s2) =>
                        (Returned tt,
                         note WARNING (SellFailed (Signal.symbol signal)) s2)
                    end
                end
              else (Returned tt, s)
          | None => (Returned tt, s)
          end
      | HOLD => (Returned tt, s)
      end
  end.

(** [TradingSystem.execute_signals]: the signals in order; an exception
    ends the loop. *)
Fixpoint execute_signals (max_position_size : Qc)
    (tickers : gmap string Ticker.t) (signals : list (Signal.t * Draws))
    (s : System) : Outcome unit * System :=
  match signals with
  | [] => (Returned tt, s)
  | (signal, d) :: rest =>
      match execute_signal max_position_size tickers signal d s with
      | (Returned _, s') => execute_signals max_position_size tickers rest s'
      | (Raised e, s') => (Raised e, s')
      end
  end.

(** Scenario: the default configuration's position size, 20% of cash. *)
Definition sell_signal : Signal.t := Signal.mk "algo" "AAPL" SELL.
Definition buy_signal : Signal.t := Signal.mk "algo" "AAPL" BUY.
Definition aapl_at (price : Qc) : gmap string Ticker.t :=
  {["AAPL" := Ticker.mk "AAPL" price]}.
Definition draws_9 : Draws := mkDraws "ORD-9" 9%Z 10%Z "TRADE-9".
Definition holding_calls_2 : list Call := take 2 holding_calls.

(** ** Proof support *)

Ltac unfold_m :=
  unfold outcome, after, bind, ret, raise, lift, gets, modify_self,
    modify_heap, log, store_position, del_position, fdiv, the_float in *.

(** ** Frame properties of the private helpers *)

Lemma same_ledger_refl p : same_ledger_but_positions p p.
Proof. repeat split. Qed.

Lemma close_position_nonpositive tid xo p w :
  Position.quantity p <= 0 ->
  heap (after (_close_position tid xo p) w) = heap w
  /\ self (after (_close_position tid xo p) w) = self w.
Proof.
  intros Hq. unfold _close_position. unfold_m.
  destruct (find_entry_order p w) as [e|]; simpl; [|done].
  destruct (Order.filled_price xo) as [xp|]; simpl; [|done].
  case_bool_decide; simpl; [done|].
  unfold Trade.new. destruct (Order.filled_at e); simpl; [|done].
  rewrite (bool_decide_eq_false_2 (0 < Position.quantity p)).
  2:{ by apply Qcle_not_lt. }
  rewrite andb_false_r. simpl. done.
Qed.

Lemma update_position_frame tid o w :
  heap (after (_update_position tid o) w) = heap w
  /\ same_ledger_but_positions (self (after (_update_position tid o) w)) (self w).
Proof.
  unfold _update_position. unfold_m.
  destruct (Order.side o); simpl.
  - destruct (Portfolio.positions (self w) !! _) as [p|]; simpl.
    + destruct (Order.filled_price o); simpl; [|split; [done|apply same_ledger_refl]].
      case_bool_decide; simpl; split; try done; repeat split.
    + unfold Position.new. destruct (Order.filled_price o); simpl;
        [|split; [done|apply same_ledger_refl]].
      destruct (_ && _); simpl; split; try done; repeat split.
  - destruct (Portfolio.positions (self w) !! _) as [p|]; simpl;
      [|split; [done|apply same_ledger_refl]].
    case_bool_decide as Hq; simpl; [|split; [done|repeat split]].
    match goal with
    | |- context [_close_position ?t ?x ?q ?v] =>
        pose proof (close_position_nonpositive t x q v Hq) as [Hh Hs];
        unfold after in Hh, Hs;
        destruct (_close_position t x q v) as [[[]|e] w'] eqn:E; simpl in *
    end.
    + rewrite Hh, Hs. simpl. split; [done|repeat split].
    + rewrite Hh, Hs. simpl. split; [done|repeat split].
  - split; [done|apply same_ledger_refl].
Qed.

(** ** The order life cycle *)

(** C7. An order that is not PENDING (FILLED, REJECTED or CANCELLED) is
    left alone by [execute_order]: the call returns [False], and neither
    the order objects nor the portfolio change. *)
Theorem execute_order_not_pending now tid r price w o :
  heap w !! r = Some o ->
  Order.status o <> PENDING ->
  outcome (execute_order now tid r price) w = Returned false
  /\ heap (after (execute_order now tid r price) w) = heap w
  /\ self (after (execute_order now tid r price) w) = self w.
Proof.
  intros Hr Hs. unfold execute_order. unfold_m. rewrite Hr.
  rewrite bool_decide_eq_true_2 by done. simpl. done.
Qed.

Lemma fill_order_self_if_false now tid r o price w :
  outcome (fill_order now tid r o price) w = Returned false ->
  self (after (fill_order now tid r o price) w) = self w.
Proof.
  unfold fill_order. unfold_m. simpl.
  destruct (_ && _); simpl; [done|].
  destruct (_update_position _ _ _) as [[[]|e] w']; simpl; done.
Qed.

(** C5. A pending LIMIT order without a limit price is REJECTED and the
    call returns [False].  With a limit price, a buy above the limit and a
    sell below it are deferred: the call returns [False], the order stays
    as it was (PENDING) and the portfolio is untouched; hence an order
    that comes out FILLED was a buy at or below its limit, or a sell at or
    above it. *)
Theorem limit_order_gate now tid r price w o :
  heap w !! r = Some o ->
  Order.status o = PENDING ->
  Order.order_type o = LIMIT ->
  let res := execute_order now tid r price w in
  match Order.limit_price o with
  | None =>
      res.1 = Returned false
      /\ heap res.2 !! r = Some (Order.set_status REJECTED o)
      /\ self res.2 = self w
  | Some limit =>
      (Order.side o = LONG -> limit < price ->
         res.1 = Returned false /\ heap res.2 = heap w /\ self res.2 = self w)
      /\ (Order.side o = SHORT -> price < limit ->
         res.1 = Returned false /\ heap res.2 = heap w /\ self res.2 = self w)
      /\ (forall o', heap res.2 !! r = Some o' -> Order.status o' = FILLED ->
            (Order.side o = LONG -> price <= limit)
            /\ (Order.side o = SHORT -> limit <= price))
  end.
Proof.
  intros Hr Hs Ht res. subst res.
  destruct (Order.limit_price o) as [limit|] eqn:Hlim;
    unfold execute_order; unfold_m; rewrite Hr;
    rewrite bool_decide_eq_false_2 by (rewrite Hs; intros H; by apply H);
    rewrite (bool_decide_eq_true_2 _ Ht), Hlim; simpl.
  - split; [|split].
    + intros Hl Hlt.
      rewrite (bool_decide_eq_true_2 _ Hl), (bool_decide_eq_true_2 _ Hlt).
      simpl. done.
    + intros Hl Hlt.
      rewrite (bool_decide_eq_false_2 (Order.side o = LONG)) by (rewrite Hl; done).
      rewrite (bool_decide_eq_true_2 _ Hl), (bool_decide_eq_true_2 _ Hlt).
      simpl. done.
    + intros o' Ho' Hf. split; intros Hl.
      * apply Qcnot_lt_le. intros Hlt.
        rewrite (bool_decide_eq_true_2 _ Hl), (bool_decide_eq_true_2 _ Hlt) in Ho'.
        simpl in Ho'. rewrite Hr in Ho'. injection Ho' as <-. congruence.
      * apply Qcnot_lt_le. intros Hlt.
        rewrite (bool_decide_eq_false_2 (Order.side o = LONG)) in Ho'
          by (rewrite Hl; done).
        rewrite (bool_decide_eq_true_2 _ Hl), (bool_decide_eq_true_2 _ Hlt) in Ho'.
        simpl in Ho'. rewrite Hr in Ho'. injection Ho' as <-. congruence.
  - rewrite list_lookup_alter_eq, Hr. done.
Qed.

(** Once the pending and limit checks have passed, [execute_order] is the
    fill of lines 167-211. *)
Lemma execute_order_through_gate now tid r price w o :
  heap w !! r = Some o ->
  Order.status o = PENDING ->
  gate_open o price ->
  execute_order now tid r price w = fill_order now tid r o price w.
Proof.
  intros Hr Hs Hg. unfold execute_order. unfold_m. rewrite Hr.
  rewrite bool_decide_eq_false_2 by (rewrite Hs; intros H; by apply H).
  destruct Hg as [Hm | (l & Hl & Hbuy & Hsell)].
  - rewrite bool_decide_eq_false_2 by (rewrite Hm; done). done.
  - case_bool_decide; [|done]. rewrite Hl.
    destruct (Order.side o) eqn:Hside; simpl.
    + rewrite bool_decide_eq_false_2; [done|].
      apply Qcle_not_lt. by apply Hbuy.
    + rewrite bool_decide_eq_false_2; [done|].
      apply Qcle_not_lt. by apply Hsell.
    + done.
Qed.

(** The engine never gets to record a trade through [execute_order]: the
    position handed to [_close_position] has a quantity [<= 0], which the
    [Trade] model refuses ([entry_quantity] is declared [gt=0]). *)
Lemma execute_order_trades now tid r price w :
  Portfolio.trades (self (after (execute_order now tid r price) w))
  = Portfolio.trades (self w).
Proof.
  assert (Hfill : forall o,
    Portfolio.trades (self (after (fill_order now tid r o price) w))
    = Portfolio.trades (self w)).
  { intros o. unfold fill_order. unfold_m. simpl.
    destruct (_ && _); simpl; [done|].
    match goal with
    | |- context [_update_position ?t ?x ?v] =>
        pose proof (update_position_frame t x v) as [_ Hs];
        unfold after in Hs;
        destruct (_update_position t x v) as [[[]|e] w'] eqn:E; simpl in *
    end; destruct Hs as (_ & _ & _ & _ & _ & -> & _); done. }
  unfold execute_order. unfold_m.
  destruct (heap w !! r) as [o|]; simpl; [|done].
  case_bool_decide; simpl; [done|].
  case_bool_decide; simpl; [|apply Hfill].
  destruct (Order.limit_price o); simpl; [|done].
  destruct (_ && _); simpl; [done|].
  destruct (_ && _); simpl; [done|]. apply Hfill.
Qed.

(** C3 (as amended). Executing a sell order for a pair that has no
    position leaves the position book and the list of trades as they were,
    and the warning "no position exists" is logged.  (The order itself is
    filled like any other sell; the statement does not cover cash and the
    cumulative counters.) *)
Theorem sell_without_position now tid r price w o :
  heap w !! r = Some o ->
  Order.status o = PENDING ->
  Order.side o = SHORT ->
  gate_open o price ->
  get_position (Order.symbol o) (Order.algorithm_id o) w = None ->
  Portfolio.positions (self (after (execute_order now tid r price) w))
    = Portfolio.positions (self w)
  /\ Portfolio.trades (self (after (execute_order now tid r price) w))
    = Portfolio.trades (self w)
  /\ (WARNING, SellWithoutPosition (Order.symbol o))
       ∈ console (after (execute_order now tid r price) w).
Proof.
  intros Hr Hs Hside Hg Hnone. split; [|split; [apply execute_order_trades|]].
  - unfold after. rewrite (execute_order_through_gate _ _ _ _ _ _ Hr Hs Hg).
    unfold get_position in Hnone.
    unfold fill_order, _update_position. unfold_m. simpl.
    rewrite Hside. simpl. rewrite Hnone. simpl. done.
  - unfold after. rewrite (execute_order_through_gate _ _ _ _ _ _ Hr Hs Hg).
    unfold get_position in Hnone.
    unfold fill_order, _update_position. unfold_m. simpl.
    rewrite Hside. simpl. rewrite Hnone. simpl.
    set_solver.
Qed.

Lemma sell_without_position_witness :
  Portfolio.positions
    (self (after (execute_order 2%Z "TRADE-1" 0%nat (dec 10 1)) naked_sell_world))
  = Portfolio.positions (self naked_sell_world)
  /\ Portfolio.trades
       (self (after (execute_order 2%Z "TRADE-1" 0%nat (dec 10 1)) naked_sell_world))
     = Portfolio.trades (self naked_sell_world)
  /\ (WARNING, SellWithoutPosition "AAPL")
       ∈ console (after (execute_order 2%Z "TRADE-1" 0%nat (dec 10 1)) naked_sell_world).
Proof.
  apply (sell_without_position 2%Z "TRADE-1" 0%nat (dec 10 1) naked_sell_world
           (Order.mk "ORD-1" "algo" "AAPL" MARKET SHORT (dec 1 1) None None
              PENDING 1%Z None 0 0)).
  - reflexivity.
  - reflexivity.
  - reflexivity.
  - left. reflexivity.
  - vm_compute. reflexivity.
Defined.

(** C3, the claim as stated fails: with no position for ("algo", "AAPL"),
    a sell of 1 share at 10 is filled, cash grows from 100 by
    9.995 * 0.999 and both cost counters grow. *)
Lemma sell_without_position_changes_ledger :
  get_position "AAPL" "algo" naked_sell_world = None
  /\ outcome (execute_order 2%Z "TRADE-1" 0%nat (dec 10 1)) naked_sell_world
     = Returned true
  /\ Portfolio.cash (self naked_sell_world) = dec 100 1
  /\ Portfolio.cash
       (self (after (execute_order 2%Z "TRADE-1" 0%nat (dec 10 1)) naked_sell_world))
     = dec 100 1 + dec 9995 1000 * dec 999 1000
  /\ Portfolio.total_commissions
       (self (after (execute_order 2%Z "TRADE-1" 0%nat (dec 10 1)) naked_sell_world))
     = dec 9995 1000000
  /\ Portfolio.total_slippage
       (self (after (execute_order 2%Z "TRADE-1" 0%nat (dec 10 1)) naked_sell_world))
     = dec 5 1000
  /\ self (after (execute_order 2%Z "TRADE-1" 0%nat (dec 10 1)) naked_sell_world)
     <> self naked_sell_world.
Proof.
  repeat split; try (apply Qc_is_canon; vm_compute; reflexivity);
    try (vm_compute; reflexivity).
  intros H. apply (f_equal Portfolio.cash) in H.
  apply (f_equal this) in H. vm_compute in H. discriminate H.
Qed.

(** ** The position book: buys *)

Lemma Qc_pos_ne_0 (x : Qc) : 0 < x -> x <> 0.
Proof. intros H ->. by apply (Qclt_not_eq 0 0). Qed.

Lemma buy_opens_position tid o w p :
  Order.side o = LONG ->
  Portfolio.positions (self w)
    !! position_key (Order.algorithm_id o) (Order.symbol o) = None ->
  Order.filled_price o = Some p ->
  0 <= Order.quantity o -> 0 <= p ->
  _update_position tid o w =
    (Returned tt,
     mkWorld (heap w)
       (Portfolio.set_positions
          (<[position_key (Order.algorithm_id o) (Order.symbol o) :=
               Position.mk (Order.symbol o) (Order.algorithm_id o) LONG
                 (Order.quantity o) p (Order.filled_at o)]>
             (Portfolio.positions (self w))) (self w))
       (console w)).
Proof.
  intros Hside Hnone Hp Hq Hp0. unfold _update_position. unfold_m.
  rewrite Hside. simpl. rewrite Hnone, Hp. unfold Position.new.
  rewrite (bool_decide_eq_true_2 _ Hq), (bool_decide_eq_true_2 _ Hp0).
  simpl. done.
Qed.

Lemma buy_adds_to_position tid o w p pos :
  Order.side o = LONG ->
  Portfolio.positions (self w)
    !! position_key (Order.algorithm_id o) (Order.symbol o) = Some pos ->
  Order.filled_price o = Some p ->
  Position.quantity pos + Order.quantity o <> 0 ->
  _update_position tid o w =
    (Returned tt,
     mkWorld (heap w)
       (Portfolio.set_positions
          (<[position_key (Order.algorithm_id o) (Order.symbol o) :=
               Position.mk (Position.symbol pos) (Position.algorithm_id pos) LONG
                 (Position.quantity pos + Order.quantity o)
                 ((Position.average_price pos * Position.quantity pos
                   + p * Order.quantity o)
                  / (Position.quantity pos + Order.quantity o))
                 (Position.opened_at pos)]>
             (Portfolio.positions (self w))) (self w))
       (console w)).
Proof.
  intros Hside Hsome Hp Hq. unfold _update_position. unfold_m.
  rewrite Hside. simpl. rewrite Hsome, Hp. simpl.
  rewrite bool_decide_eq_false_2 by done. simpl. unfold_m. simpl.
  unfold Portfolio.set_positions. simpl. rewrite !insert_insert_eq. done.
Qed.

(** Adding to a standing position: quantities add up and the average is
    the cost-weighted one. *)
Lemma fills_accumulate tid aid sym os : forall w pos,
  Forall (buy_fill_for aid sym) os ->
  Portfolio.positions (self w) !! position_key aid sym = Some pos ->
  0 < Position.quantity pos ->
  exists w' pos',
    apply_fills tid os w = (Returned tt, w')
    /\ Portfolio.positions (self w') !! position_key aid sym = Some pos'
    /\ Position.quantity pos' = Position.quantity pos + sum_quantity os
    /\ Position.average_price pos'
       = (Position.average_price pos * Position.quantity pos + sum_cost os)
         / (Position.quantity pos + sum_quantity os).
Proof.
  induction os as [|o os IH]; intros w pos Hall Hpos Hq.
  - exists w, pos. simpl. split; [done|]. split; [done|].
    pose proof (Qc_pos_ne_0 _ Hq). split; [ring | field; done].
  - apply Forall_cons_1 in Hall as [(Hside & <- & <- & Hqo & p & Hp & Hp0) Hall].
    assert (Hsum : 0 < Position.quantity pos + Order.quantity o)
      by (by apply Qcplus_pos_pos).
    pose proof (Qc_pos_ne_0 _ Hsum) as Hne.
    pose proof (Qc_pos_ne_0 _ Hq) as Hne0.
    simpl. unfold bind.
    rewrite (buy_adds_to_position tid o w p pos Hside Hpos Hp Hne).
    match goal with
    | |- context [apply_fills tid os ?v] =>
        destruct (IH v
          (Position.mk (Position.symbol pos) (Position.algorithm_id pos) LONG
             (Position.quantity pos + Order.quantity o)
             ((Position.average_price pos * Position.quantity pos
               + p * Order.quantity o)
              / (Position.quantity pos + Order.quantity o))
             (Position.opened_at pos)) Hall)
          as (w' & pos' & Hrun & Hlook & Hquant & Havg)
    end.
    { simpl. apply lookup_insert_eq. }
    { done. }
    exists w', pos'. rewrite Hrun. split; [done|]. split; [done|].
    simpl in Hquant, Havg. rewrite Hquant, Havg.
    unfold fill_price. rewrite Hp. simpl.
    assert (Hpos' : 0 <= sum_quantity os).
    { clear -Hall. induction Hall as [|x l (_ & _ & _ & Hx & _) _ IHl]; simpl.
      - done.
      - apply Qcplus_nonneg_nonneg; [by apply Qclt_le_weak | done]. }
    assert (Hne2 : Position.quantity pos + Order.quantity o + sum_quantity os <> 0).
    { apply Qc_pos_ne_0. by apply Qcplus_pos_nonneg. }
    assert (Hne3 : Position.quantity pos + (Order.quantity o + sum_quantity os) <> 0).
    { by rewrite Qcplus_assoc. }
    split; [ring | field; done].
Qed.

(** C8. A run of [n >= 1] buy fills for one (strategy, symbol) pair that
    starts without a position ends with a position whose quantity is the
    sum of the filled quantities and whose average price is
    [Σ qi·pi / Σ qi], exactly. *)
Theorem average_price_of_buys tid aid sym os w :
  os <> [] ->
  Forall (buy_fill_for aid sym) os ->
  Portfolio.positions (self w) !! position_key aid sym = None ->
  exists w' pos,
    apply_fills tid os w = (Returned tt, w')
    /\ get_position sym aid w' = Some pos
    /\ Position.quantity pos = sum_quantity os
    /\ Position.average_price pos = sum_cost os / sum_quantity os.
Proof.
  intros Hne Hall Hnone. destruct os as [|o os]; [done|].
  apply Forall_cons_1 in Hall as [(Hside & <- & <- & Hqo & p & Hp & Hp0) Hall].
  simpl. unfold bind.
  rewrite (buy_opens_position tid o w p Hside Hnone Hp (Qclt_le_weak _ _ Hqo) Hp0).
  match goal with
  | |- context [apply_fills tid os ?v] =>
      destruct (fills_accumulate tid (Order.algorithm_id o) (Order.symbol o) os v
        (Position.mk (Order.symbol o) (Order.algorithm_id o) LONG
           (Order.quantity o) p (Order.filled_at o)) Hall)
        as (w' & pos' & Hrun & Hlook & Hquant & Havg)
  end.
  { simpl. apply lookup_insert_eq. }
  { done. }
  exists w', pos'. rewrite Hrun. split; [done|]. split; [done|].
  simpl in Hquant, Havg. rewrite Hquant, Havg.
  unfold fill_price. rewrite Hp. simpl. split; [done|].
  f_equal. ring.
Qed.

Lemma average_price_of_buys_witness :
  exists w' pos,
    apply_fills "TRADE-0" two_buys (init (dec 1000 1) 0 0) = (Returned tt, w')
    /\ get_position "AAPL" "algo" w' = Some pos
    /\ Position.quantity pos = sum_quantity two_buys
    /\ Position.average_price pos = sum_cost two_buys / sum_quantity two_buys.
Proof.
  apply average_price_of_buys.
  - discriminate.
  - repeat constructor; try reflexivity;
      (eexists; split; [reflexivity | vm_compute; discriminate]).
  - reflexivity.
Defined.

(** The spec's scenario: 5 at 100 then 5 at 120 gives 10 at 110. *)
Example two_buys_average :
  sum_quantity two_buys = dec 10 1
  /\ sum_cost two_buys / sum_quantity two_buys = dec 110 1.
Proof. split; apply Qc_is_canon; vm_compute; reflexivity. Qed.

(** ** The trade recorder *)

(** C6. When [_close_position] records a trade, the record's net P&L is
    its gross P&L minus its total commission minus its total slippage,
    and these totals are the sums of the matched entry order's and the
    exit order's commission and slippage.  (Without a matching entry
    order no trade is recorded.) *)
Theorem close_position_net_pnl tid exit_order position w w' :
  _close_position tid exit_order position w = (Returned tt, w') ->
  match find_entry_order position w with
  | None => Portfolio.trades (self w') = Portfolio.trades (self w)
  | Some entry_order =>
      exists t,
        Portfolio.trades (self w') = Portfolio.trades (self w) ++ [t]
        /\ net_pnl_identity t
        /\ Trade.total_commission t
           = Order.commission entry_order + Order.commission exit_order
        /\ Trade.total_slippage t
           = Order.slippage entry_order + Order.slippage exit_order
  end.
Proof.
  unfold _close_position. unfold_m.
  destruct (find_entry_order position w) as [e|]; simpl.
  - destruct (Order.filled_price exit_order) as [xp|]; simpl; [|discriminate].
    case_bool_decide; simpl; [discriminate|].
    unfold Trade.new. destruct (Order.filled_at e); simpl; [|discriminate].
    destruct (_ && _); simpl; [|discriminate].
    intros [= <-]. simpl. eexists. split; [reflexivity|]. simpl.
    split; [|done].
    eexists _, _. simpl. split; [reflexivity|]. split; [reflexivity|]. ring.
  - intros [= <-]. done.
Qed.

Lemma close_position_net_pnl_witness :
  match find_entry_order five_at_100 round_trip_world with
  | None =>
      Portfolio.trades
        (self (after (_close_position "TRADE-1" exit_at_130 five_at_100)
                     round_trip_world))
      = Portfolio.trades (self round_trip_world)
  | Some entry_order =>
      exists t,
        Portfolio.trades
          (self (after (_close_position "TRADE-1" exit_at_130 five_at_100)
                       round_trip_world))
        = Portfolio.trades (self round_trip_world) ++ [t]
        /\ net_pnl_identity t
        /\ Trade.total_commission t
           = Order.commission entry_order + Order.commission exit_at_130
        /\ Trade.total_slippage t
           = Order.slippage entry_order + Order.slippage exit_at_130
  end.
Proof.
  apply (close_position_net_pnl "TRADE-1" exit_at_130 five_at_100 round_trip_world).
  vm_compute. reflexivity.
Defined.

(** Called on the position as it stood before the sell, the recorder
    does produce the trade of the spec's scenario. *)
Example close_position_on_undecremented_position :
  exists t,
    Portfolio.trades
      (self (after (_close_position "TRADE-1" exit_at_130 five_at_100)
                   round_trip_world)) = [t]
    /\ Trade.gross_pnl t = Some (dec 150 1)
    /\ Trade.net_pnl t = Some (dec 150 1)
    /\ Trade.is_open t = false.
Proof. eexists. vm_compute. repeat split; reflexivity. Qed.

(** ** Closing a position through [execute_order] *)

(** C1, the code at the claim's scenario.  Selling all 5 shares (bought
    at 100) at 130 without costs does not record a trade and does not
    remove the position: the position's quantity is 0 when
    [_close_position] runs, the P&L percentage divides by
    [average_price * 0], and the call raises with the order already marked
    FILLED, the position left in the book at quantity 0 and cash still at
    500. *)
Theorem full_close_raises :
  outcome (execute_order 4%Z "TRADE-1" 1%nat (dec 130 1)) round_trip_world
    = Raised ZeroDivisionError
  /\ Portfolio.trades
       (self (after (execute_order 4%Z "TRADE-1" 1%nat (dec 130 1)) round_trip_world))
     = []
  /\ get_position "AAPL" "algo"
       (after (execute_order 4%Z "TRADE-1" 1%nat (dec 130 1)) round_trip_world)
     = Some (Position.set_quantity 0 five_at_100)
  /\ Portfolio.cash
       (self (after (execute_order 4%Z "TRADE-1" 1%nat (dec 130 1)) round_trip_world))
     = dec 500 1
  /\ heap (after (execute_order 4%Z "TRADE-1" 1%nat (dec 130 1)) round_trip_world)
       !! 1%nat = Some exit_at_130.
Proof. vm_compute. repeat split; reflexivity. Qed.

(** C2, the code on a full close with costs.  The call raises half-way:
    the sell order is FILLED and both cost counters have grown, but cash
    is what it was before the call and the position is still in the book
    (at quantity 0), with no trade recorded. *)
Theorem full_close_is_not_atomic :
  let w := costly_round_trip_world in
  let w' := after (execute_order 4%Z "TRADE-1" 1%nat (dec 130 1)) w in
  outcome (execute_order 4%Z "TRADE-1" 1%nat (dec 130 1)) w
    = Raised ZeroDivisionError
  /\ Order.status <$> heap w !! 1%nat = Some PENDING
  /\ Order.status <$> heap w' !! 1%nat = Some FILLED
  /\ Portfolio.total_commissions (self w') <> Portfolio.total_commissions (self w)
  /\ Portfolio.total_slippage (self w') <> Portfolio.total_slippage (self w)
  /\ Portfolio.cash (self w') = Portfolio.cash (self w)
  /\ Position.quantity <$> get_position "AAPL" "algo" w' = Some 0
  /\ Portfolio.trades (self w') = [].
Proof.
  cbv zeta. repeat split; try (vm_compute; reflexivity).
  - intros H. apply (f_equal this) in H. vm_compute in H. discriminate H.
  - intros H. apply (f_equal this) in H. vm_compute in H. discriminate H.
Qed.

(** ** Position keys *)

(** C10. The book key is not injective in (strategy, symbol): the pairs
    ("a", "b:c") and ("a:b", "c") share the key "a:b:c".  After "a" has
    bought 5 of "b:c", [get_position] for ("a:b", "c") returns that very
    position, and a fill of 2 for ("a:b", "c") changes the position that
    [get_position] returns for ("a", "b:c") to quantity 7. *)
Theorem position_key_collision :
  ("a", "b:c") <> ("a:b", "c")
  /\ position_key "a" "b:c" = position_key "a:b" "c"
  /\ (forall w, get_position "b:c" "a" w = get_position "c" "a:b" w)
  /\ Position.quantity <$> get_position "b:c" "a" colliding_world = Some (dec 5 1)
  /\ outcome (execute_order 4%Z "TRADE-1" 1%nat (dec 100 1)) colliding_world
     = Returned true
  /\ Position.quantity <$>
       get_position "b:c" "a"
         (after (execute_order 4%Z "TRADE-1" 1%nat (dec 100 1)) colliding_world)
     = Some (dec 7 1)
  /\ Position.symbol <$>
       get_position "c" "a:b"
         (after (execute_order 4%Z "TRADE-1" 1%nat (dec 100 1)) colliding_world)
     = Some "b:c".
Proof.
  split; [discriminate|]. split; [reflexivity|]. split; [reflexivity|].
  vm_compute. repeat split; reflexivity.
Qed.

(** ** What one call can change *)

Lemma same_owner_refl p : same_owner p p.
Proof. by split. Qed.

Lemma is_entry_for_same_owner p' p e :
  same_owner p' p -> is_entry_for p' e = is_entry_for p e.
Proof. intros [Hs Ha]. unfold is_entry_for. by rewrite Hs, Ha. Qed.

(** Where the positions of the book come from after a fill was applied. *)
Lemma update_position_provenance tid o w k p' :
  Portfolio.positions (self (after (_update_position tid o) w)) !! k = Some p' ->
  (exists p, Portfolio.positions (self w) !! k = Some p /\ same_owner p' p)
  \/ (Order.side o = LONG
      /\ Position.symbol p' = Order.symbol o
      /\ Position.algorithm_id p' = Order.algorithm_id o).
Proof.
  unfold _update_position. unfold_m.
  set (key := position_key (Order.algorithm_id o) (Order.symbol o)).
  destruct (Order.side o) eqn:Hside; simpl.
  - destruct (Portfolio.positions (self w) !! key) as [p|] eqn:Hp; simpl.
    + assert (Hkeep : forall q, same_owner q p ->
        <[key := q]> (Portfolio.positions (self w)) !! k = Some p' ->
        exists p0, Portfolio.positions (self w) !! k = Some p0 /\ same_owner p' p0).
      { intros q Hq Hl. apply lookup_insert_Some in Hl as [[<- <-]|[_ Hl]].
        - by exists p.
        - exists p'. split; [done|apply same_owner_refl]. }
      destruct (Order.filled_price o); simpl.
      * case_bool_decide; simpl; unfold_m; simpl;
          rewrite ?insert_insert_eq; intros Hl; left;
          (eapply Hkeep; [|exact Hl]); by split.
      * intros Hl. left. exists p'. split; [done|apply same_owner_refl].
    + unfold Position.new. destruct (Order.filled_price o); simpl.
      * destruct (_ && _); simpl; unfold_m; simpl.
        -- intros Hl. apply lookup_insert_Some in Hl as [[<- <-]|[_ Hl]].
           ++ right. done.
           ++ left. exists p'. split; [done|apply same_owner_refl].
        -- intros Hl. left. exists p'. split; [done|apply same_owner_refl].
      * intros Hl. left. exists p'. split; [done|apply same_owner_refl].
  - destruct (Portfolio.positions (self w) !! key) as [p|] eqn:Hp; simpl.
    2:{ intros Hl. left. exists p'. split; [done|apply same_owner_refl]. }
    assert (Hkeep : forall q, same_owner q p ->
      <[key := q]> (Portfolio.positions (self w)) !! k = Some p' ->
      exists p0, Portfolio.positions (self w) !! k = Some p0 /\ same_owner p' p0).
    { intros q Hq Hl. apply lookup_insert_Some in Hl as [[<- <-]|[_ Hl]].
      - by exists p.
      - exists p'. split; [done|apply same_owner_refl]. }
    case_bool_decide as Hq; simpl.
    + match goal with
      | |- context [_close_position ?t ?x ?q ?v] =>
          pose proof (close_position_nonpositive t x q v Hq) as [Hh Hs];
          unfold after in Hh, Hs;
          destruct (_close_position t x q v) as [[[]|e] w'] eqn:E; simpl in *
      end; rewrite Hs; simpl; intros Hl; left.
      * apply lookup_delete_Some in Hl as [_ Hl].
        eapply Hkeep; [|exact Hl]. by split.
      * eapply Hkeep; [|exact Hl]. by split.
    + intros Hl. left. eapply Hkeep; [|exact Hl]. by split.
  - intros Hl. left. exists p'. split; [done|apply same_owner_refl].
Qed.

Lemma execution_effect_refl r w w' :
  heap w' = heap w -> self w' = self w -> execution_effect r w w'.
Proof.
  intros Hh Hs. unfold execution_effect. rewrite Hh, Hs.
  repeat split; try done.
  - intros o' Ho'. exists o'. by repeat split.
  - intros k p' Hp'. left. exists p'. split; [done|apply same_owner_refl].
Qed.

Lemma rejection_effect r w w' o :
  heap w !! r = Some o ->
  Order.status o = PENDING ->
  heap w' = alter (Order.set_status REJECTED) r (heap w) ->
  self w' = self w ->
  execution_effect r w w'.
Proof.
  intros Hr Hst Hh Hs. unfold execution_effect. rewrite Hh, Hs.
  split; [done|]. split; [done|]. split; [done|].
  split; [apply length_alter|].
  split; [intros r2 Hne; by apply list_lookup_alter_ne|].
  split; [intros o0 Ho0 Hn; congruence|].
  split.
  - intros o'. rewrite list_lookup_alter_eq, Hr. simpl. intros [= <-].
    exists o. by repeat split.
  - intros k p' Hp'. left. exists p'. split; [done|apply same_owner_refl].
Qed.

Lemma fill_order_effect now tid r o price w :
  heap w !! r = Some o ->
  Order.status o = PENDING ->
  execution_effect r w (after (fill_order now tid r o price) w).
Proof.
  intros Hr Hst. unfold fill_order. unfold_m. simpl.
  destruct (_ && _); simpl.
  { by apply (rejection_effect r w _ o). }
  match goal with
  | |- context [_update_position ?t ?x ?v] =>
      remember x as o' eqn:Ho';
      assert (Hreq : same_request o' o) by (by subst o');
      assert (Hfilled : Order.status o' = FILLED) by (by subst o');
      clear Ho'
  end.
  match goal with
  | |- context [_update_position ?t o' ?v] =>
      pose proof (update_position_frame t o' v) as [Hh Hs];
      pose proof (update_position_provenance t o' v) as Hprov;
      unfold after in Hh, Hs, Hprov;
      destruct (_update_position t o' v) as [res w2] eqn:E
  end.
  simpl in Hh, Hs, Hprov. clear E.
  destruct Hs as (_ & _ & Hcr & Hsr & Hord & _).
  assert (Hlen : (r < length (heap w))%nat) by (by eapply lookup_lt_Some).
  assert (Heff : forall w', heap w' = heap w2 ->
            Portfolio.orders (self w') = Portfolio.orders (self w2) ->
            Portfolio.commission_rate (self w') = Portfolio.commission_rate (self w2) ->
            Portfolio.slippage_rate (self w') = Portfolio.slippage_rate (self w2) ->
            Portfolio.positions (self w') = Portfolio.positions (self w2) ->
            execution_effect r w w').
  { intros w' Hh' Ho' Hc' Hs' Hp'. unfold execution_effect.
    rewrite Hh', Ho', Hc', Hs', Hp', Hh, Hcr, Hsr, Hord.
    split; [done|]. split; [done|]. split; [done|].
    split; [apply length_insert|].
    split; [intros r2 Hne; by apply list_lookup_insert_ne|].
    split; [intros o0 Ho0 Hn; congruence|].
    assert (Hnew : <[r := o']> (heap w) !! r = Some o')
      by (by apply list_lookup_insert_eq).
    split.
    - intros o0. rewrite Hnew. intros [= <-]. by exists o.
    - intros k p' Hl. destruct (Hprov k p' Hl) as [Hold | (Hside & Hsym & Halg)].
      + by left.
      + right. exists o'. split; [done|]. unfold is_entry_for.
        destruct Hreq as (_ & _ & Hside' & _).
        rewrite !bool_decide_eq_true_2; done. }
  destruct res as [[]|e]; simpl; apply Heff; done.
Qed.

Lemma execute_order_effect now tid r price w :
  execution_effect r w (after (execute_order now tid r price) w).
Proof.
  unfold execute_order. unfold_m.
  destruct (heap w !! r) as [o|] eqn:Hr; simpl;
    [|by apply execution_effect_refl].
  case_bool_decide as Hst; simpl; [by apply execution_effect_refl|].
  assert (Hpend : Order.status o = PENDING).
  { destruct (decide (Order.status o = PENDING)); [done|]. by destruct Hst. }
  pose proof (fill_order_effect now tid r o price w Hr Hpend) as Hfill.
  unfold after in Hfill.
  case_bool_decide; simpl; [|done].
  destruct (Order.limit_price o); simpl.
  - destruct (_ && _); simpl; [by apply execution_effect_refl|].
    destruct (_ && _); simpl; [by apply execution_effect_refl|]. done.
  - by apply (rejection_effect r w _ o).
Qed.

(** ** Cash *)

Lemma Qc_sub_nonneg (a b : Qc) : b <= a -> 0 <= a - b.
Proof.
  intros H. apply (Qcplus_le_mono_r _ _ b).
  replace (a - b + b) with a by ring. by rewrite Qcplus_0_l.
Qed.

(** What a sell brings in is not negative when the rates are at most 1. *)
Lemma sell_proceeds_nonneg (price sr cr q : Qc) :
  0 <= price -> sr <= 1 -> cr <= 1 -> 0 < q ->
  0 <= (price - price * sr) * q - (price - price * sr) * q * cr.
Proof.
  intros Hp Hsr Hcr Hq.
  replace ((price - price * sr) * q - (price - price * sr) * q * cr)
    with (price * (1 - sr) * q * (1 - cr)) by ring.
  repeat apply Qcmult_nonneg_nonneg; try done.
  - by apply Qc_sub_nonneg.
  - by apply Qclt_le_weak.
  - by apply Qc_sub_nonneg.
Qed.

Lemma fill_order_cash_nonneg now tid r o price w :
  0 <= Portfolio.cash (self w) ->
  0 < Order.quantity o ->
  Portfolio.commission_rate (self w) <= 1 ->
  Portfolio.slippage_rate (self w) <= 1 ->
  0 <= price ->
  0 <= Portfolio.cash (self (after (fill_order now tid r o price) w)).
Proof.
  intros Hcash Hq Hcr Hsr Hp. unfold fill_order. unfold_m. simpl.
  destruct (decide (Order.side o = LONG)) as [Hside|Hside].
  - rewrite !(bool_decide_eq_true_2 _ Hside). simpl.
    destruct (bool_decide (_ < _)) eqn:Hlt; simpl; [done|].
    apply bool_decide_eq_false_1 in Hlt.
    match goal with
    | |- context [_update_position ?t ?x ?v] =>
        pose proof (update_position_frame t x v) as [_ Hs];
        unfold after in Hs;
        destruct (_update_position t x v) as [[[]|e] w2]
    end; simpl in *; destruct Hs as (_ & -> & _); [|done].
    apply Qc_sub_nonneg. by apply Qcnot_lt_le.
  - rewrite !(bool_decide_eq_false_2 _ Hside). simpl.
    match goal with
    | |- context [_update_position ?t ?x ?v] =>
        pose proof (update_position_frame t x v) as [_ Hs];
        unfold after in Hs;
        destruct (_update_position t x v) as [[[]|e] w2]
    end; simpl in *; destruct Hs as (_ & -> & _); [|done].
    apply Qcplus_nonneg_nonneg; [done|]. by apply sell_proceeds_nonneg.
Qed.

Lemma execute_order_cash_nonneg now tid r price w :
  0 <= Portfolio.cash (self w) ->
  quantities_positive w ->
  Portfolio.commission_rate (self w) <= 1 ->
  Portfolio.slippage_rate (self w) <= 1 ->
  0 <= price ->
  0 <= Portfolio.cash (self (after (execute_order now tid r price) w)).
Proof.
  intros Hcash Hq Hcr Hsr Hp. unfold execute_order. unfold_m.
  destruct (heap w !! r) as [o|] eqn:Hr; simpl; [|done].
  pose proof (fill_order_cash_nonneg now tid r o price w Hcash (Hq r o Hr)
                Hcr Hsr Hp) as Hfill.
  unfold after in Hfill.
  case_bool_decide; simpl; [done|].
  case_bool_decide; simpl; [|done].
  destruct (Order.limit_price o); simpl; [|done].
  destruct (_ && _); simpl; [done|].
  destruct (_ && _); simpl; done.
Qed.

(** A buy that cash cannot pay for is rejected and the portfolio is left
    as it was. *)
Lemma unaffordable_buy_rejected now tid r o price w :
  heap w !! r = Some o ->
  Order.status o = PENDING ->
  Order.side o = LONG ->
  gate_open o price ->
  Portfolio.cash (self w) < trade_value w o price + commission_due w o price ->
  outcome (execute_order now tid r price) w = Returned false
  /\ heap (after (execute_order now tid r price) w) !! r
     = Some (Order.set_status REJECTED o)
  /\ self (after (execute_order now tid r price) w) = self w.
Proof.
  intros Hr Hst Hside Hg Hlt. unfold outcome, after.
  rewrite (execute_order_through_gate _ _ _ _ _ _ Hr Hst Hg).
  unfold fill_order. unfold_m. simpl.
  unfold commission_due, trade_value, execution_price in Hlt.
  rewrite Hside in *. simpl in *.
  rewrite (bool_decide_eq_true_2 _ Hlt). simpl.
  rewrite list_lookup_alter_eq, Hr. done.
Qed.

(** ** [create_order] *)

Lemma create_order_effect oid now sym aid side q ty lim w :
  after (create_order oid now sym aid side q ty lim) w = w
  \/ exists o,
       0 < Order.quantity o
       /\ Order.status o = PENDING
       /\ heap (after (create_order oid now sym aid side q ty lim) w)
          = heap w ++ [o]
       /\ self (after (create_order oid now sym aid side q ty lim) w)
          = Portfolio.set_orders
              (Portfolio.orders (self w) ++ [length (heap w)]) (self w).
Proof.
  unfold create_order, Order.new. unfold_m.
  destruct (bool_decide (0 < q)) eqn:Hq; simpl; [|by left].
  destruct (match lim with Some l => bool_decide (0 < l) | None => true end);
    simpl; [|by left].
  right. eexists. split; [|split; [|split; reflexivity]].
  - simpl. by apply bool_decide_eq_true_1 in Hq.
  - done.
Qed.

(** ** Sessions *)

Lemma init_invariant ic cr sr : session_invariant (init ic cr sr).
Proof.
  split; [|split].
  - intros r Hr. simpl in Hr. lia.
  - intros k p Hp. simpl in Hp. by rewrite lookup_empty in Hp.
  - intros r o Ho. simpl in Ho. by rewrite lookup_nil in Ho.
Qed.

Lemma create_order_invariant oid now sym aid side q ty lim w :
  session_invariant w ->
  session_invariant (after (create_order oid now sym aid side q ty lim) w).
Proof.
  intros (Hlisted & Hentries & Hquant).
  destruct (create_order_effect oid now sym aid side q ty lim w)
    as [-> | (o & Hq & Hst & Hh & Hs)]; [done|].
  split; [|split].
  - intros r Hr. rewrite Hh, length_app in Hr. simpl in Hr.
    rewrite Hs. simpl. apply elem_of_app.
    destruct (decide (r = length (heap w))) as [->|Hne].
    + right. by apply list_elem_of_singleton.
    + left. apply Hlisted. lia.
  - intros k p Hp. rewrite Hs in Hp. simpl in Hp.
    destruct (Hentries k p Hp) as (e & He & Hentry). exists e. split; [|done].
    unfold order_history in *. apply list_elem_of_omap in He as (r & Hr & Hre).
    apply list_elem_of_omap. exists r. rewrite Hs, Hh. simpl. split.
    + apply elem_of_app. by left.
    + by apply lookup_app_l_Some.
  - intros r o' Ho'. rewrite Hh in Ho'.
    apply lookup_app_Some in Ho' as [Ho' | [_ Ho']].
    + by eapply Hquant.
    + apply list_lookup_singleton_Some in Ho' as [_ <-]. done.
Qed.

Lemma execute_order_invariant now tid r price w :
  session_invariant w ->
  session_invariant (after (execute_order now tid r price) w).
Proof.
  intros (Hlisted & Hentries & Hquant).
  destruct (execute_order_effect now tid r price w)
    as (Hord & _ & _ & Hlen & Hother & Hkept & Hreq & Hpos).
  set (w' := after (execute_order now tid r price) w) in *.
  assert (Hhist : forall e, e ∈ order_history w -> Order.status e = FILLED ->
                            e ∈ order_history w').
  { intros e He Hst. unfold order_history in *.
    apply list_elem_of_omap in He as (r2 & Hr2 & Hre).
    apply list_elem_of_omap. exists r2. rewrite Hord. split; [done|].
    destruct (decide (r2 = r)) as [->|Hne].
    - apply Hkept; [done|]. by rewrite Hst.
    - by rewrite Hother. }
  split; [|split].
  - intros r2 Hr2. rewrite Hord. apply Hlisted. by rewrite <- Hlen.
  - intros k p' Hp'. destruct (Hpos k p' Hp') as [(p & Hp & Hsame) | (o' & Ho' & He)].
    + destruct (Hentries k p Hp) as (e & He & Hentry). exists e.
      rewrite (is_entry_for_same_owner p' p e Hsame). split; [|done].
      apply Hhist; [done|]. unfold is_entry_for in Hentry.
      apply andb_true_iff in Hentry as [_ Hentry].
      by apply bool_decide_eq_true_1 in Hentry.
    + exists o'. split; [|done]. unfold order_history.
      apply list_elem_of_omap. exists r. split; [|done].
      rewrite Hord. apply Hlisted. rewrite <- Hlen. by eapply lookup_lt_Some.
  - intros r2 o' Ho'. destruct (decide (r2 = r)) as [->|Hne].
    + destruct (Hreq o' Ho') as (o & Ho & _ & _ & _ & ->). by eapply Hquant.
    + rewrite Hother in Ho' by done. by eapply Hquant.
Qed.

Lemma perform_invariant c w :
  session_invariant w -> session_invariant (perform c w).
Proof.
  destruct c; simpl.
  - apply create_order_invariant.
  - apply execute_order_invariant.
Qed.

Lemma perform_rates c w :
  Portfolio.commission_rate (self (perform c w)) = Portfolio.commission_rate (self w)
  /\ Portfolio.slippage_rate (self (perform c w)) = Portfolio.slippage_rate (self w).
Proof.
  destruct c as [oid now sym aid side q ty lim | now tid r price]; simpl.
  - destruct (create_order_effect oid now sym aid side q ty lim w)
      as [-> | (o & _ & _ & _ & ->)]; done.
  - destruct (execute_order_effect now tid r price w) as (_ & Hc & Hs & _). done.
Qed.

Lemma session_snoc calls c w :
  session (calls ++ [c]) w = perform c (session calls w).
Proof. unfold session. by rewrite foldl_snoc. Qed.

Lemma session_invariant_holds calls w :
  session_invariant w -> session_invariant (session calls w).
Proof.
  intros Hw. induction calls as [|c calls IH] using rev_ind; [done|].
  rewrite session_snoc. by apply perform_invariant.
Qed.

Lemma session_rates calls w :
  Portfolio.commission_rate (self (session calls w)) = Portfolio.commission_rate (self w)
  /\ Portfolio.slippage_rate (self (session calls w)) = Portfolio.slippage_rate (self w).
Proof.
  induction calls as [|c calls [IHc IHs]] using rev_ind; [done|].
  rewrite session_snoc. destruct (perform_rates c (session calls w)) as [-> ->].
  done.
Qed.

Lemma perform_cash_nonneg c w :
  session_invariant w ->
  0 <= Portfolio.cash (self w) ->
  Portfolio.commission_rate (self w) <= 1 ->
  Portfolio.slippage_rate (self w) <= 1 ->
  price_nonneg c ->
  0 <= Portfolio.cash (self (perform c w)).
Proof.
  intros (_ & _ & Hquant) Hcash Hcr Hsr Hp.
  destruct c as [oid now sym aid side q ty lim | now tid r price]; simpl.
  - destruct (create_order_effect oid now sym aid side q ty lim w)
      as [-> | (o & _ & _ & _ & ->)]; done.
  - by apply execute_order_cash_nonneg.
Qed.

Lemma session_cash_nonneg calls ic cr sr :
  0 <= ic -> cr <= 1 -> sr <= 1 ->
  Forall price_nonneg calls ->
  0 <= Portfolio.cash (self (session calls (init ic cr sr))).
Proof.
  intros Hic Hcr Hsr. induction calls as [|c calls IH] using rev_ind; [done|].
  intros Hall. apply Forall_app in Hall as [Hall Hc]. apply Forall_inv in Hc.
  rewrite session_snoc.
  destruct (session_rates calls (init ic cr sr)) as [Hc' Hs'].
  apply perform_cash_nonneg.
  - apply session_invariant_holds, init_invariant.
  - by apply IH.
  - by rewrite Hc'.
  - by rewrite Hs'.
  - exact Hc.
Qed.

(** C4 (as amended). With a non-negative initial capital, commission and
    slippage rates of at most 1, and non-negative execution prices, cash
    is non-negative after every call of every session of
    [create_order]/[execute_order] calls; and in every state so reached, a
    pending buy whose trade value plus commission exceeds cash is
    REJECTED, returns [False] and leaves the portfolio (cash included) as
    it was. *)
Theorem cash_never_negative ic cr sr calls :
  0 <= ic -> cr <= 1 -> sr <= 1 ->
  Forall price_nonneg calls ->
  (forall n, 0 <= Portfolio.cash (self (session (take n calls) (init ic cr sr))))
  /\ (forall now tid r o price,
        let w := session calls (init ic cr sr) in
        heap w !! r = Some o ->
        Order.status o = PENDING ->
        Order.side o = LONG ->
        gate_open o price ->
        Portfolio.cash (self w) < trade_value w o price + commission_due w o price ->
        outcome (execute_order now tid r price) w = Returned false
        /\ heap (after (execute_order now tid r price) w) !! r
           = Some (Order.set_status REJECTED o)
        /\ self (after (execute_order now tid r price) w) = self w).
Proof.
  intros Hic Hcr Hsr Hall. split.
  - intros n. apply session_cash_nonneg; try done. by apply Forall_take.
  - intros now tid r o price w. by apply unaffordable_buy_rejected.
Qed.

Lemma cash_never_negative_witness :
  (forall n,
     0 <= Portfolio.cash
            (self (session (take n round_trip_calls) (init (dec 1000 1) 0 0))))
  /\ (forall now tid r o price,
        let w := session round_trip_calls (init (dec 1000 1) 0 0) in
        heap w !! r = Some o ->
        Order.status o = PENDING ->
        Order.side o = LONG ->
        gate_open o price ->
        Portfolio.cash (self w) < trade_value w o price + commission_due w o price ->
        outcome (execute_order now tid r price) w = Returned false
        /\ heap (after (execute_order now tid r price) w) !! r
           = Some (Order.set_status REJECTED o)
        /\ self (after (execute_order now tid r price) w) = self w).
Proof.
  apply (cash_never_negative (dec 1000 1) 0 0 round_trip_calls).
  - vm_compute. discriminate.
  - vm_compute. discriminate.
  - vm_compute. discriminate.
  - repeat constructor; vm_compute; discriminate.
Defined.

(** C4, the claim as stated fails: nothing bounds the rates.  With capital
    100 and a commission rate of 2, selling 100 shares at 10 brings in
    1000 and costs 2000 in commission, and cash ends at -900. *)
Lemma cash_negative_with_commission_above_one :
  0 <= dec 100 1
  /\ Portfolio.cash
       (self (session ruinous_commission_calls (init (dec 100 1) (dec 2 1) 0)))
     = dec (-900) 1
  /\ Portfolio.cash
       (self (session ruinous_commission_calls (init (dec 100 1) (dec 2 1) 0)))
     < 0.
Proof.
  split; [vm_compute; discriminate|].
  split; [apply Qc_is_canon; vm_compute; reflexivity|].
  vm_compute. reflexivity.
Qed.

(** The spec's scenarios for the cash check. *)
Example unaffordable_first_buy :
  let w := after (create_order "ORD-1" 1%Z "AAPL" "algo" LONG (dec 1 1) MARKET None)
                 (init (dec 100 1) (dec 1 1000) (dec 5 10000)) in
  outcome (execute_order 2%Z "TRADE-0" 0%nat (dec 1755 10)) w = Returned false
  /\ Order.status <$> heap (after (execute_order 2%Z "TRADE-0" 0%nat (dec 1755 10)) w)
       !! 0%nat = Some REJECTED
  /\ Portfolio.cash (self (after (execute_order 2%Z "TRADE-0" 0%nat (dec 1755 10)) w))
     = dec 100 1.
Proof. vm_compute. repeat split; reflexivity. Qed.

Example unaffordable_second_buy :
  let w := after (create_order "ORD-2" 3%Z "AAPL" "algo" LONG (dec 5 1) MARKET None)
             (session (take 2 round_trip_calls) (init (dec 1000 1) 0 0)) in
  Portfolio.cash (self w) = dec 500 1
  /\ outcome (execute_order 4%Z "TRADE-1" 1%nat (dec 120 1)) w = Returned false
  /\ Position.quantity <$>
       get_position "AAPL" "algo"
         (after (execute_order 4%Z "TRADE-1" 1%nat (dec 120 1)) w)
     = Some (dec 5 1)
  /\ Portfolio.cash (self (after (execute_order 4%Z "TRADE-1" 1%nat (dec 120 1)) w))
     = dec 500 1.
Proof. vm_compute. repeat split; reflexivity. Qed.

(** ** The exact full close *)

Lemma find_finds {A} (f : A -> bool) (l : list A) (x : A) :
  x ∈ l -> f x = true -> exists y, List.find f l = Some y.
Proof.
  intros Hx Hf. destruct (List.find f l) as [y|] eqn:E; [by exists y|].
  apply list_elem_of_In in Hx.
  pose proof (List.find_none f l E x Hx) as Hnone. congruence.
Qed.

(** The entry order of a position survives the fill of a pending order. *)
Lemma entry_found_after_fill w r o o' p pf' log' :
  positions_have_entries w ->
  heap w !! r = Some o ->
  Order.status o = PENDING ->
  Portfolio.orders pf' = Portfolio.orders (self w) ->
  forall k q, Portfolio.positions (self w) !! k = Some p ->
  same_owner q p ->
  exists e, find_entry_order q (mkWorld (<[r := o']> (heap w)) pf' log') = Some e.
Proof.
  intros Hentries Hr Hst Hord k q Hp Hsame.
  destruct (Hentries k p Hp) as (e & He & Hentry).
  unfold find_entry_order. apply (find_finds _ _ e).
  - apply elem_of_reverse. unfold order_history in *. simpl.
    apply list_elem_of_omap in He as (r2 & Hr2 & Hre).
    apply list_elem_of_omap. exists r2. rewrite Hord. split; [done|].
    rewrite list_lookup_insert_ne; [done|].
    intros <-. rewrite Hr in Hre. injection Hre as <-.
    unfold is_entry_for in Hentry. apply andb_true_iff in Hentry as [_ Hf].
    apply bool_decide_eq_true_1 in Hf. congruence.
  - by rewrite (is_entry_for_same_owner q p e Hsame).
Qed.

Lemma exact_full_close_raises now tid r price w o p :
  positions_have_entries w ->
  heap w !! r = Some o ->
  Order.status o = PENDING ->
  Order.side o = SHORT ->
  gate_open o price ->
  get_position (Order.symbol o) (Order.algorithm_id o) w = Some p ->
  Position.quantity p = Order.quantity o ->
  outcome (execute_order now tid r price) w = Raised ZeroDivisionError
  /\ get_position (Order.symbol o) (Order.algorithm_id o)
       (after (execute_order now tid r price) w)
     = Some (Position.set_quantity 0 p).
Proof.
  intros Hentries Hr Hst Hside Hg Hp Hq. unfold outcome, after.
  rewrite (execute_order_through_gate _ _ _ _ _ _ Hr Hst Hg).
  unfold get_position in *.
  unfold fill_order. unfold_m. simpl.
  rewrite (bool_decide_eq_false_2 (Order.side o = LONG)) by (by rewrite Hside).
  simpl. unfold _update_position. unfold_m. simpl. rewrite Hside, Hp. simpl.
  assert (Hzero : Position.quantity p - Order.quantity o = 0)
    by (rewrite Hq; ring).
  rewrite Hzero. rewrite bool_decide_eq_true_2 by done.
  unfold _close_position. unfold_m. simpl.
  match goal with
  | |- context [find_entry_order ?q (mkWorld (<[r := ?o']> (heap w)) ?pf ?lg)] =>
      destruct (entry_found_after_fill w r o o' p pf lg Hentries Hr Hst eq_refl
                  _ q Hp) as (e & ->); [by split|]
  end.
  simpl. rewrite Qcmult_0_r.
  rewrite bool_decide_eq_true_2 by done. simpl.
  by rewrite lookup_insert_eq.
Qed.

(** C9. An exact full close divides by zero.  In every state that a
    session of [create_order]/[execute_order] calls reaches, executing a
    pending sell order whose quantity equals the quantity of the position
    it meets sets that quantity to 0, calls [_close_position], and raises
    [ZeroDivisionError] at [gross_pnl / (average_price * 0)]: the call
    does not return, and the position stays in the book at quantity 0. *)
Theorem exact_full_close_divides_by_zero ic cr sr calls now tid r price o p :
  let w := session calls (init ic cr sr) in
  heap w !! r = Some o ->
  Order.status o = PENDING ->
  Order.side o = SHORT ->
  gate_open o price ->
  get_position (Order.symbol o) (Order.algorithm_id o) w = Some p ->
  Position.quantity p = Order.quantity o ->
  outcome (execute_order now tid r price) w = Raised ZeroDivisionError
  /\ get_position (Order.symbol o) (Order.algorithm_id o)
       (after (execute_order now tid r price) w)
     = Some (Position.set_quantity 0 p).
Proof.
  intros w. apply exact_full_close_raises.
  apply (session_invariant_holds calls (init ic cr sr)), init_invariant.
Qed.

Lemma exact_full_close_divides_by_zero_witness :
  outcome (execute_order 4%Z "TRADE-1" 1%nat (dec 130 1))
          (session round_trip_calls (init (dec 1000 1) 0 0))
    = Raised ZeroDivisionError
  /\ get_position "AAPL" "algo"
       (after (execute_order 4%Z "TRADE-1" 1%nat (dec 130 1))
              (session round_trip_calls (init (dec 1000 1) 0 0)))
     = Some (Position.set_quantity 0 five_at_100).
Proof.
  apply (exact_full_close_divides_by_zero (dec 1000 1) 0 0 round_trip_calls
           4%Z "TRADE-1" 1%nat (dec 130 1)
           (Order.mk "ORD-2" "algo" "AAPL" MARKET SHORT (dec 5 1) None None
              PENDING 3%Z None 0 0)
           five_at_100).
  - reflexivity.
  - reflexivity.
  - reflexivity.
  - left. reflexivity.
  - vm_compute. reflexivity.
  - reflexivity.
Defined.

(** ** The life-cycle statements at concrete orders *)

Lemma execute_order_not_pending_witness :
  outcome (execute_order 9%Z "TRADE-9" 0%nat (dec 100 1)) round_trip_world
    = Returned false
  /\ heap (after (execute_order 9%Z "TRADE-9" 0%nat (dec 100 1)) round_trip_world)
     = heap round_trip_world
  /\ self (after (execute_order 9%Z "TRADE-9" 0%nat (dec 100 1)) round_trip_world)
     = self round_trip_world.
Proof.
  apply (execute_order_not_pending 9%Z "TRADE-9" 0%nat (dec 100 1) round_trip_world
           (Order.mk "ORD-1" "algo" "AAPL" MARKET LONG (dec 5 1) None
              (Some (dec 100 1)) FILLED 1%Z (Some 2%Z) 0 0)).
  - vm_compute. reflexivity.
  - simpl. discriminate.
Defined.

(** A rejected order is as final as a filled one. *)
Example rejected_order_is_final :
  let w := after (execute_order 4%Z "TRADE-0" 2%nat (dec 100 1)) limit_world in
  Order.status <$> heap w !! 2%nat = Some REJECTED
  /\ outcome (execute_order 5%Z "TRADE-1" 2%nat (dec 100 1)) w = Returned false
  /\ heap (after (execute_order 5%Z "TRADE-1" 2%nat (dec 100 1)) w) = heap w
  /\ self (after (execute_order 5%Z "TRADE-1" 2%nat (dec 100 1)) w) = self w.
Proof. vm_compute. repeat split; reflexivity. Qed.

Lemma limit_order_gate_witness :
  let res := execute_order 4%Z "TRADE-0" 0%nat (dec 101 1) limit_world in
  (Order.side limit_buy = LONG -> dec 100 1 < dec 101 1 ->
     res.1 = Returned false /\ heap res.2 = heap limit_world
     /\ self res.2 = self limit_world)
  /\ (Order.side limit_buy = SHORT -> dec 101 1 < dec 100 1 ->
     res.1 = Returned false /\ heap res.2 = heap limit_world
     /\ self res.2 = self limit_world)
  /\ (forall o', heap res.2 !! 0%nat = Some o' -> Order.status o' = FILLED ->
        (Order.side limit_buy = LONG -> dec 101 1 <= dec 100 1)
        /\ (Order.side limit_buy = SHORT -> dec 100 1 <= dec 101 1)).
Proof.
  apply (limit_order_gate 4%Z "TRADE-0" 0%nat (dec 101 1) limit_world limit_buy).
  - vm_compute. reflexivity.
  - reflexivity.
  - reflexivity.
Defined.

(** The three outcomes of the limit check, and a fill at the limit. *)
Example limit_buy_deferred_above_limit :
  outcome (execute_order 4%Z "TRADE-0" 0%nat (dec 101 1)) limit_world
    = Returned false
  /\ Order.status <$>
       heap (after (execute_order 4%Z "TRADE-0" 0%nat (dec 101 1)) limit_world)
         !! 0%nat = Some PENDING.
Proof. vm_compute. split; reflexivity. Qed.

Example limit_sell_deferred_below_limit :
  outcome (execute_order 4%Z "TRADE-0" 1%nat (dec 99 1)) limit_world
    = Returned false
  /\ Order.status <$>
       heap (after (execute_order 4%Z "TRADE-0" 1%nat (dec 99 1)) limit_world)
         !! 1%nat = Some PENDING.
Proof. vm_compute. split; reflexivity. Qed.

Example limit_buy_fills_at_limit :
  outcome (execute_order 4%Z "TRADE-0" 0%nat (dec 100 1)) limit_world
    = Returned true
  /\ Order.status <$>
       heap (after (execute_order 4%Z "TRADE-0" 0%nat (dec 100 1)) limit_world)
         !! 0%nat = Some FILLED.
Proof. vm_compute. split; reflexivity. Qed.

Example limit_order_without_price_rejected :
  outcome (execute_order 4%Z "TRADE-0" 2%nat (dec 100 1)) limit_world
    = Returned false
  /\ Order.status <$>
       heap (after (execute_order 4%Z "TRADE-0" 2%nat (dec 100 1)) limit_world)
         !! 2%nat = Some REJECTED.
Proof. vm_compute. split; reflexivity. Qed.

(** * Further properties of the ledger *)

(** ** [create_order] *)

(** X1. [create_order] with a quantity that is not positive, or with a
    limit price that is not positive, raises pydantic's validation error
    and changes nothing: no order object, no history entry, no log line. *)
Theorem create_order_rejects_bad_input oid now sym aid side q ty lim w :
  q <= 0 \/ (exists l, lim = Some l /\ l <= 0) ->
  create_order oid now sym aid side q ty lim w = (Raised ValidationError, w).
Proof.
  intros Hbad. unfold create_order, Order.new. unfold_m.
  destruct Hbad as [Hq | (l & -> & Hl)].
  - rewrite (bool_decide_eq_false_2 (0 < q)) by (by apply Qcle_not_lt). done.
  - rewrite (bool_decide_eq_false_2 (0 < l)) by (by apply Qcle_not_lt).
    by rewrite andb_false_r.
Qed.

Lemma create_order_rejects_bad_input_witness :
  create_order "ORD-9" 9%Z "AAPL" "algo" LONG 0 MARKET None round_trip_world
  = (Raised ValidationError, round_trip_world).
Proof.
  apply create_order_rejects_bad_input. left. vm_compute. discriminate.
Defined.

(** X2. With a positive quantity and no or a positive limit price,
    [create_order] returns a new order object that is PENDING, carries the
    request and no cost, and is the last entry of the order history; the
    orders made before are what they were, and cash, positions, trades
    and counters are untouched. *)
Theorem create_order_returns_fresh_pending_order oid now sym aid side q ty lim w :
  0 < q ->
  (forall l, lim = Some l -> 0 < l) ->
  let order := Order.mk oid aid sym ty side q lim None PENDING now None 0 0 in
  let w' := after (create_order oid now sym aid side q ty lim) w in
  outcome (create_order oid now sym aid side q ty lim) w
    = Returned (length (heap w))
  /\ heap w' !! length (heap w) = Some order
  /\ (forall (r : nat) o, heap w !! r = Some o -> heap w' !! r = Some o)
  /\ Portfolio.orders (self w') = Portfolio.orders (self w) ++ [length (heap w)]
  /\ same_ledger_but_positions
       (Portfolio.set_orders (Portfolio.orders (self w)) (self w'))
       (self w)
  /\ Portfolio.positions (self w') = Portfolio.positions (self w).
Proof.
  intros Hq Hlim order w'. subst order w'.
  unfold create_order, Order.new. unfold_m.
  rewrite (bool_decide_eq_true_2 _ Hq).
  assert (Hl : match lim with Some l => bool_decide (0 < l) | None => true end = true).
  { destruct lim as [l|]; [|done]. apply bool_decide_eq_true_2. by apply Hlim. }
  rewrite Hl. simpl. split; [done|]. split.
  { rewrite lookup_app_r by done. by rewrite Nat.sub_diag. }
  split; [intros r o Ho; by apply lookup_app_l_Some|].
  split; [done|]. split; [repeat split|done].
Qed.

Lemma create_order_returns_fresh_pending_order_witness :
  let order := Order.mk "ORD-9" "algo" "AAPL" LIMIT LONG (dec 2 1)
                 (Some (dec 90 1)) None PENDING 9%Z None 0 0 in
  let w' := after (create_order "ORD-9" 9%Z "AAPL" "algo" LONG (dec 2 1) LIMIT
                     (Some (dec 90 1))) round_trip_world in
  outcome (create_order "ORD-9" 9%Z "AAPL" "algo" LONG (dec 2 1) LIMIT
             (Some (dec 90 1))) round_trip_world
    = Returned (length (heap round_trip_world))
  /\ heap w' !! length (heap round_trip_world) = Some order
  /\ (forall (r : nat) o, heap round_trip_world !! r = Some o -> heap w' !! r = Some o)
  /\ Portfolio.orders (self w')
     = Portfolio.orders (self round_trip_world) ++ [length (heap round_trip_world)]
  /\ same_ledger_but_positions
       (Portfolio.set_orders (Portfolio.orders (self round_trip_world)) (self w'))
       (self round_trip_world)
  /\ Portfolio.positions (self w') = Portfolio.positions (self round_trip_world).
Proof.
  apply (create_order_returns_fresh_pending_order "ORD-9" 9%Z "AAPL" "algo" LONG
           (dec 2 1) LIMIT (Some (dec 90 1)) round_trip_world).
  - vm_compute. reflexivity.
  - intros l [= <-]. vm_compute. reflexivity.
Defined.

(** ** Fills *)

(** X3. A pending buy that passes the limit check, for a pair without a
    position, that cash can pay for and whose execution price is not
    negative, is filled: the call returns [True], cash goes down by
    exactly trade value plus commission, the book gets a LONG position of
    the order's quantity at the execution price, the order object holds
    the fill, and the counters grow by its commission and slippage. *)
Theorem buy_opens_new_position now tid r price w o :
  heap w !! r = Some o ->
  Order.status o = PENDING ->
  Order.side o = LONG ->
  gate_open o price ->
  0 < Order.quantity o ->
  get_position (Order.symbol o) (Order.algorithm_id o) w = None ->
  trade_value w o price + commission_due w o price <= Portfolio.cash (self w) ->
  0 <= execution_price w o price ->
  let w' := after (execute_order now tid r price) w in
  outcome (execute_order now tid r price) w = Returned true
  /\ Portfolio.cash (self w')
     = Portfolio.cash (self w) - (trade_value w o price + commission_due w o price)
  /\ Portfolio.positions (self w')
     = <[position_key (Order.algorithm_id o) (Order.symbol o) :=
           Position.mk (Order.symbol o) (Order.algorithm_id o) LONG
             (Order.quantity o) (execution_price w o price) (Some now)]>
         (Portfolio.positions (self w))
  /\ heap w' = <[r := filled now w o price]> (heap w)
  /\ Portfolio.total_commissions (self w')
     = Portfolio.total_commissions (self w) + commission_due w o price
  /\ Portfolio.total_slippage (self w')
     = Portfolio.total_slippage (self w)
       + price * Portfolio.slippage_rate (self w) * Order.quantity o.
Proof.
  intros Hr Hst Hside Hg Hq Hnone Hcash Hep w'. subst w'.
  unfold outcome, after.
  rewrite (execute_order_through_gate _ _ _ _ _ _ Hr Hst Hg).
  unfold get_position in Hnone.
  unfold filled, commission_due, trade_value, execution_price in *.
  rewrite (bool_decide_eq_true_2 _ Hside) in *.
  unfold fill_order. unfold_m. simpl.
  rewrite (bool_decide_eq_true_2 _ Hside). simpl.
  rewrite bool_decide_eq_false_2 by (by apply Qcle_not_lt). simpl.
  unfold _update_position. unfold_m. simpl. rewrite Hside. simpl.
  rewrite Hnone. unfold Position.new.
  rewrite (bool_decide_eq_true_2 (0 <= Order.quantity o))
    by (by apply Qclt_le_weak).
  rewrite (bool_decide_eq_true_2 _ Hep). simpl. done.
Qed.

(** X4. A pending sell that passes the limit check and asks for less than
    the position holds is filled: the call returns [True], the position
    keeps its average price with the quantity reduced by the order's,
    cash goes up by exactly trade value minus commission, and no trade is
    recorded. *)
Theorem partial_sell_reduces_position now tid r price w o p :
  heap w !! r = Some o ->
  Order.status o = PENDING ->
  Order.side o = SHORT ->
  gate_open o price ->
  get_position (Order.symbol o) (Order.algorithm_id o) w = Some p ->
  Order.quantity o < Position.quantity p ->
  let w' := after (execute_order now tid r price) w in
  outcome (execute_order now tid r price) w = Returned true
  /\ Portfolio.positions (self w')
     = <[position_key (Order.algorithm_id o) (Order.symbol o) :=
           Position.set_quantity (Position.quantity p - Order.quantity o) p]>
         (Portfolio.positions (self w))
  /\ Portfolio.cash (self w')
     = Portfolio.cash (self w) + (trade_value w o price - commission_due w o price)
  /\ Portfolio.trades (self w') = Portfolio.trades (self w)
  /\ heap w' = <[r := filled now w o price]> (heap w).
Proof.
  intros Hr Hst Hside Hg Hp Hlt w'. subst w'.
  unfold outcome, after.
  rewrite (execute_order_through_gate _ _ _ _ _ _ Hr Hst Hg).
  unfold get_position in Hp.
  unfold filled, commission_due, trade_value, execution_price in *.
  rewrite (bool_decide_eq_false_2 (Order.side o = LONG)) in * by (by rewrite Hside).
  unfold fill_order. unfold_m. simpl.
  rewrite (bool_decide_eq_false_2 (Order.side o = LONG)) by (by rewrite Hside).
  simpl. unfold _update_position. unfold_m. simpl. rewrite Hside, Hp. simpl.
  rewrite bool_decide_eq_false_2; [simpl; done|].
  apply Qclt_not_le. apply (Qcplus_lt_mono_r _ _ (Order.quantity o)).
  replace (Position.quantity p - Order.quantity o + Order.quantity o)
    with (Position.quantity p) by ring.
  by rewrite Qcplus_0_l.
Qed.

Lemma buy_opens_new_position_witness :
  let w' := after (execute_order 2%Z "TRADE-0" 0%nat (dec 100 1)) first_buy_world in
  outcome (execute_order 2%Z "TRADE-0" 0%nat (dec 100 1)) first_buy_world
    = Returned true
  /\ Portfolio.cash (self w')
     = Portfolio.cash (self first_buy_world)
       - (trade_value first_buy_world first_buy (dec 100 1)
          + commission_due first_buy_world first_buy (dec 100 1))
  /\ Portfolio.positions (self w')
     = <[position_key "algo" "AAPL" :=
           Position.mk "AAPL" "algo" LONG (dec 5 1)
             (execution_price first_buy_world first_buy (dec 100 1)) (Some 2%Z)]>
         (Portfolio.positions (self first_buy_world))
  /\ heap w' = <[0%nat := filled 2%Z first_buy_world first_buy (dec 100 1)]>
                 (heap first_buy_world)
  /\ Portfolio.total_commissions (self w')
     = Portfolio.total_commissions (self first_buy_world)
       + commission_due first_buy_world first_buy (dec 100 1)
  /\ Portfolio.total_slippage (self w')
     = Portfolio.total_slippage (self first_buy_world)
       + dec 100 1 * Portfolio.slippage_rate (self first_buy_world)
         * Order.quantity first_buy.
Proof.
  apply (buy_opens_new_position 2%Z "TRADE-0" 0%nat (dec 100 1) first_buy_world
           first_buy).
  - reflexivity.
  - reflexivity.
  - reflexivity.
  - left. reflexivity.
  - vm_compute. reflexivity.
  - vm_compute. reflexivity.
  - vm_compute. discriminate.
  - vm_compute. discriminate.
Defined.

(** In numbers: 5 shares at 100.05 cost 500.25 plus 0.50025 commission. *)
Example first_buy_in_numbers :
  Portfolio.cash
    (self (after (execute_order 2%Z "TRADE-0" 0%nat (dec 100 1)) first_buy_world))
  = dec 1000 1 - (dec 50025 100 + dec 50025 100000)
  /\ get_position "AAPL" "algo"
       (after (execute_order 2%Z "TRADE-0" 0%nat (dec 100 1)) first_buy_world)
     = Some held_position.
Proof.
  split; [apply Qc_is_canon; vm_compute; reflexivity|].
  vm_compute. reflexivity.
Qed.

Lemma partial_sell_reduces_position_witness :
  let w' := after (execute_order 5%Z "TRADE-1" 1%nat (dec 130 1)) holding_world in
  outcome (execute_order 5%Z "TRADE-1" 1%nat (dec 130 1)) holding_world
    = Returned true
  /\ Portfolio.positions (self w')
     = <[position_key "algo" "AAPL" :=
           Position.set_quantity (dec 5 1 - dec 2 1) held_position]>
         (Portfolio.positions (self holding_world))
  /\ Portfolio.cash (self w')
     = Portfolio.cash (self holding_world)
       + (trade_value holding_world sell_of_2 (dec 130 1)
          - commission_due holding_world sell_of_2 (dec 130 1))
  /\ Portfolio.trades (self w') = Portfolio.trades (self holding_world)
  /\ heap w' = <[1%nat := filled 5%Z holding_world sell_of_2 (dec 130 1)]>
                 (heap holding_world).
Proof.
  apply (partial_sell_reduces_position 5%Z "TRADE-1" 1%nat (dec 130 1)
           holding_world sell_of_2 held_position).
  - reflexivity.
  - reflexivity.
  - reflexivity.
  - left. reflexivity.
  - vm_compute. reflexivity.
  - vm_compute. reflexivity.
Defined.

Lemma find_none_intro {A} (f : A -> bool) (l : list A) :
  (forall x, x ∈ l -> f x = false) -> List.find f l = None.
Proof.
  intros H. destruct (List.find f l) as [y|] eqn:E; [|done].
  apply List.find_some in E as [Hin Hf]. apply list_elem_of_In in Hin.
  rewrite (H y Hin) in Hf. discriminate.
Qed.

(** A filled sell is no entry: the search of [_close_position] finds
    none after the fill if the history held none before. *)
Lemma no_entry_after_fill w r o' p pf' log' :
  no_entry_for p w ->
  Order.side o' = SHORT ->
  Portfolio.orders pf' = Portfolio.orders (self w) ->
  forall q, same_owner q p ->
  find_entry_order q (mkWorld (<[r := o']> (heap w)) pf' log') = None.
Proof.
  intros Hnone Hside Hord q Hsame. unfold find_entry_order.
  apply find_none_intro. intros e He. rewrite elem_of_reverse in He.
  unfold order_history in He. simpl in He.
  apply list_elem_of_omap in He as (r2 & Hr2 & Hre).
  rewrite (is_entry_for_same_owner q p e Hsame).
  rewrite Hord in Hr2.
  destruct (decide (r = r2)) as [<-|Hne].
  - apply list_lookup_insert_Some in Hre as [(_ & <- & _) | [Hne _]]; [|done].
    unfold is_entry_for. rewrite (bool_decide_eq_false_2 (Order.side o' = LONG))
      by (by rewrite Hside).
    by rewrite andb_false_r.
  - rewrite list_lookup_insert_ne in Hre by done.
    apply Hnone. unfold order_history. apply list_elem_of_omap. by exists r2.
Qed.

(** X5. A sell that uses up the position (or more) while the order
    history holds no filled buy of the position's strategy and symbol
    closes without a record: the call returns [True], the warning
    "could not find entry order" is logged, the position leaves the book,
    cash is credited with trade value minus commission, and no trade is
    recorded. *)
Theorem close_without_entry_removes_position now tid r price w o p :
  heap w !! r = Some o ->
  Order.status o = PENDING ->
  Order.side o = SHORT ->
  gate_open o price ->
  get_position (Order.symbol o) (Order.algorithm_id o) w = Some p ->
  Position.quantity p <= Order.quantity o ->
  no_entry_for p w ->
  let w' := after (execute_order now tid r price) w in
  outcome (execute_order now tid r price) w = Returned true
  /\ Portfolio.positions (self w')
     = delete (position_key (Order.algorithm_id o) (Order.symbol o))
         (Portfolio.positions (self w))
  /\ Portfolio.cash (self w')
     = Portfolio.cash (self w) + (trade_value w o price - commission_due w o price)
  /\ Portfolio.trades (self w') = Portfolio.trades (self w)
  /\ (WARNING, EntryOrderNotFound (Position.symbol p)) ∈ console w'.
Proof.
  intros Hr Hst Hside Hg Hp Hle Hnone w'. subst w'.
  unfold outcome, after.
  rewrite (execute_order_through_gate _ _ _ _ _ _ Hr Hst Hg).
  unfold get_position in Hp.
  unfold commission_due, trade_value, execution_price in *.
  rewrite (bool_decide_eq_false_2 (Order.side o = LONG)) in * by (by rewrite Hside).
  unfold fill_order. unfold_m. simpl.
  rewrite (bool_decide_eq_false_2 (Order.side o = LONG)) by (by rewrite Hside).
  simpl. unfold _update_position. unfold_m. simpl. rewrite Hside, Hp. simpl.
  rewrite bool_decide_eq_true_2.
  2:{ apply (Qcplus_le_mono_r _ _ (Order.quantity o)).
      replace (Position.quantity p - Order.quantity o + Order.quantity o)
        with (Position.quantity p) by ring.
      by rewrite Qcplus_0_l. }
  unfold _close_position. unfold_m. simpl.
  match goal with
  | |- context [find_entry_order ?q (mkWorld (<[r := ?o']> (heap w)) ?pf ?lg)] =>
      rewrite (no_entry_after_fill w r o' p pf lg Hnone Hside eq_refl q)
        by (by split)
  end.
  simpl. rewrite delete_insert_eq.
  repeat split; try done. set_solver.
Qed.

Lemma close_without_entry_removes_position_witness :
  let w' := after (execute_order 5%Z "TRADE-1" 1%nat (dec 130 1))
                  forgotten_entry_world in
  outcome (execute_order 5%Z "TRADE-1" 1%nat (dec 130 1)) forgotten_entry_world
    = Returned true
  /\ Portfolio.positions (self w')
     = delete (position_key "algo" "AAPL")
         (Portfolio.positions (self forgotten_entry_world))
  /\ Portfolio.cash (self w')
     = Portfolio.cash (self forgotten_entry_world)
       + (trade_value forgotten_entry_world sell_of_5 (dec 130 1)
          - commission_due forgotten_entry_world sell_of_5 (dec 130 1))
  /\ Portfolio.trades (self w') = Portfolio.trades (self forgotten_entry_world)
  /\ (WARNING, EntryOrderNotFound "AAPL") ∈ console w'.
Proof.
  apply (close_without_entry_removes_position 5%Z "TRADE-1" 1%nat (dec 130 1)
           forgotten_entry_world sell_of_5
           (Position.mk "AAPL" "algo" LONG (dec 5 1)
              (dec 100 1 + dec 100 1 * dec 5 10000) (Some 3%Z))).
  - reflexivity.
  - reflexivity.
  - reflexivity.
  - left. reflexivity.
  - vm_compute. reflexivity.
  - vm_compute. discriminate.
  - intros e He. vm_compute in He.
    apply list_elem_of_singleton in He. subst e. reflexivity.
Defined.

(** X6. Selling more than the position holds does not go through.  In
    every state that a session of [create_order]/[execute_order] calls
    reaches, executing a pending sell order for more than the quantity of
    the position it meets (bought at a non-zero average price) raises
    pydantic's validation error when the trade record is built, its entry
    quantity being negative: the order is already FILLED, the position
    stays in the book with a negative quantity, cash is not credited and
    no trade is recorded. *)
Theorem oversell_raises_validation_error ic cr sr calls now tid r price o p :
  let w := session calls (init ic cr sr) in
  heap w !! r = Some o ->
  Order.status o = PENDING ->
  Order.side o = SHORT ->
  gate_open o price ->
  get_position (Order.symbol o) (Order.algorithm_id o) w = Some p ->
  Position.quantity p < Order.quantity o ->
  Position.average_price p <> 0 ->
  let w' := after (execute_order now tid r price) w in
  outcome (execute_order now tid r price) w = Raised ValidationError
  /\ get_position (Order.symbol o) (Order.algorithm_id o) w'
     = Some (Position.set_quantity (Position.quantity p - Order.quantity o) p)
  /\ Order.status <$> heap w' !! r = Some FILLED
  /\ Portfolio.cash (self w') = Portfolio.cash (self w)
  /\ Portfolio.trades (self w') = Portfolio.trades (self w).
Proof.
  intros w Hr Hst Hside Hg Hp Hlt Havg w'. subst w'.
  assert (Hentries : positions_have_entries w).
  { apply (session_invariant_holds calls (init ic cr sr)), init_invariant. }
  assert (Hneg : Position.quantity p - Order.quantity o < 0).
  { apply (Qcplus_lt_mono_r _ _ (Order.quantity o)).
    replace (Position.quantity p - Order.quantity o + Order.quantity o)
      with (Position.quantity p) by ring.
    by rewrite Qcplus_0_l. }
  assert (Hlen : (r < length (heap w))%nat) by (by eapply lookup_lt_Some).
  unfold outcome, after.
  rewrite (execute_order_through_gate _ _ _ _ _ _ Hr Hst Hg).
  unfold get_position in *.
  unfold fill_order. unfold_m. simpl.
  rewrite (bool_decide_eq_false_2 (Order.side o = LONG)) by (by rewrite Hside).
  simpl. unfold _update_position. unfold_m. simpl. rewrite Hside, Hp. simpl.
  rewrite bool_decide_eq_true_2 by (by apply Qclt_le_weak).
  unfold _close_position. unfold_m. simpl.
  match goal with
  | |- context [find_entry_order ?q (mkWorld (<[r := ?o']> (heap w)) ?pf ?lg)] =>
      destruct (entry_found_after_fill w r o o' p pf lg Hentries Hr Hst eq_refl
                  _ q Hp) as (e & ->); [by split|]
  end.
  simpl. rewrite bool_decide_eq_false_2.
  2:{ intros Hz. apply Qcmult_integral in Hz as [Hz|Hz]; [done|].
      rewrite Hz in Hneg. by apply (Qclt_not_eq 0 0). }
  simpl. unfold Trade.new.
  assert (Hrefused : forall b1 b3 b4 b5 b6 : bool,
    b1 && bool_decide (0 < Position.quantity p - Order.quantity o)
       && b3 && b4 && b5 && b6 = false).
  { intros. rewrite (bool_decide_eq_false_2 (0 < _)).
    - by rewrite andb_false_r.
    - apply Qcle_not_lt. by apply Qclt_le_weak. }
  destruct (Order.filled_at e); simpl; rewrite ?Hrefused; simpl;
    rewrite lookup_insert_eq, list_lookup_insert_eq by done; done.
Qed.

Lemma oversell_raises_validation_error_witness :
  let w := session holding_calls (init (dec 1000 1) (dec 1 1000) (dec 5 10000)) in
  let w' := after (execute_order 5%Z "TRADE-1" 2%nat (dec 130 1)) w in
  outcome (execute_order 5%Z "TRADE-1" 2%nat (dec 130 1)) w = Raised ValidationError
  /\ get_position "AAPL" "algo" w'
     = Some (Position.set_quantity (dec 5 1 - dec 6 1) held_position)
  /\ Order.status <$> heap w' !! 2%nat = Some FILLED
  /\ Portfolio.cash (self w') = Portfolio.cash (self w)
  /\ Portfolio.trades (self w') = Portfolio.trades (self w).
Proof.
  apply (oversell_raises_validation_error (dec 1000 1) (dec 1 1000) (dec 5 10000)
           holding_calls 5%Z "TRADE-1" 2%nat (dec 130 1) sell_of_6 held_position).
  - reflexivity.
  - reflexivity.
  - reflexivity.
  - left. reflexivity.
  - vm_compute. reflexivity.
  - vm_compute. reflexivity.
  - intros H. apply (f_equal this) in H. vm_compute in H. discriminate H.
Defined.

(** X7. Through [create_order] and [execute_order] the list of trades
    never grows: whenever [_close_position] gets as far as building the
    record, the position's quantity is already [<= 0] and the [Trade]
    model refuses it. *)
Theorem session_records_no_trade ic cr sr calls :
  Portfolio.trades (self (session calls (init ic cr sr))) = [].
Proof.
  induction calls as [|c calls IH] using rev_ind; [done|].
  rewrite session_snoc.
  destruct c as [oid now sym aid side q ty lim | now tid r price]; simpl.
  - destruct (create_order_effect oid now sym aid side q ty lim
                (session calls (init ic cr sr)))
      as [-> | (o & _ & _ & _ & ->)]; done.
  - by rewrite execute_order_trades.
Qed.

(** What a call of [execute_order] does to the order object and to the
    cost counters: nothing, a rejection, or a fill. *)
Lemma execute_order_costs now tid r price w :
  let w' := after (execute_order now tid r price) w in
  (heap w' = heap w
   /\ Portfolio.total_commissions (self w') = Portfolio.total_commissions (self w)
   /\ Portfolio.total_slippage (self w') = Portfolio.total_slippage (self w)
   /\ outcome (execute_order now tid r price) w = Returned false)
  \/ (exists o, heap w !! r = Some o /\ Order.status o = PENDING
      /\ heap w' = alter (Order.set_status REJECTED) r (heap w)
      /\ Portfolio.total_commissions (self w') = Portfolio.total_commissions (self w)
      /\ Portfolio.total_slippage (self w') = Portfolio.total_slippage (self w)
      /\ outcome (execute_order now tid r price) w = Returned false)
  \/ (exists o, heap w !! r = Some o /\ Order.status o = PENDING
      /\ heap w' = <[r := filled now w o price]> (heap w)
      /\ Portfolio.total_commissions (self w')
         = Portfolio.total_commissions (self w) + commission_due w o price
      /\ Portfolio.total_slippage (self w')
         = Portfolio.total_slippage (self w)
           + price * Portfolio.slippage_rate (self w) * Order.quantity o
      /\ outcome (execute_order now tid r price) w <> Returned false).
Proof.
  cbv zeta.
  assert (Hfill : forall o, heap w !! r = Some o -> Order.status o = PENDING ->
    let w' := after (fill_order now tid r o price) w in
    (exists o0, heap w !! r = Some o0 /\ Order.status o0 = PENDING
      /\ heap w' = alter (Order.set_status REJECTED) r (heap w)
      /\ Portfolio.total_commissions (self w') = Portfolio.total_commissions (self w)
      /\ Portfolio.total_slippage (self w') = Portfolio.total_slippage (self w)
      /\ outcome (fill_order now tid r o price) w = Returned false)
    \/ (exists o0, heap w !! r = Some o0 /\ Order.status o0 = PENDING
      /\ heap w' = <[r := filled now w o0 price]> (heap w)
      /\ Portfolio.total_commissions (self w')
         = Portfolio.total_commissions (self w) + commission_due w o0 price
      /\ Portfolio.total_slippage (self w')
         = Portfolio.total_slippage (self w)
           + price * Portfolio.slippage_rate (self w) * Order.quantity o0
      /\ outcome (fill_order now tid r o price) w <> Returned false)).
  { intros o Hr Hst. cbv zeta. unfold fill_order. unfold_m. simpl.
    destruct (_ && _); simpl.
    { left. exists o. done. }
    right. exists o. split; [done|]. split; [done|].
    unfold filled, commission_due, trade_value, execution_price.
    match goal with
    | |- context [_update_position ?t ?x ?v] =>
        pose proof (update_position_frame t x v) as [Hh Hs];
        unfold after in Hh, Hs;
        destruct (_update_position t x v) as [[[]|e] w2]
    end; simpl in *;
      destruct Hs as (_ & _ & _ & _ & _ & _ & Htc & Hts);
      rewrite Hh, Htc, Hts; done. }
  unfold execute_order, outcome, after in *. unfold_m.
  destruct (heap w !! r) as [o|] eqn:Hr; simpl; [|left; done].
  case_bool_decide as Hst; simpl; [left; done|].
  assert (Hpend : Order.status o = PENDING).
  { destruct (decide (Order.status o = PENDING)); [done|]. by destruct Hst. }
  specialize (Hfill o eq_refl Hpend). cbv zeta in Hfill.
  case_bool_decide; simpl; [|right; exact Hfill].
  destruct (Order.limit_price o); simpl.
  - destruct (_ && _); simpl; [left; done|].
    destruct (_ && _); simpl; [left; done|]. right. exact Hfill.
  - right. left. exists o. done.
Qed.

(** X8. When [execute_order] returns [True], the order object holds the
    fill: status FILLED, the fill time, the execution price, the
    commission [execution price * quantity * commission rate] and the
    slippage cost.  With a slippage rate and a price that are not
    negative, slippage works against the trader: a buy is filled at or
    above the current price and any other order at or below it, and the
    recorded slippage cost is the quantity times that price concession. *)
Theorem successful_execution_fills_order now tid r price w o :
  heap w !! r = Some o ->
  0 <= Portfolio.slippage_rate (self w) ->
  0 <= price ->
  outcome (execute_order now tid r price) w = Returned true ->
  Order.status o = PENDING
  /\ heap (after (execute_order now tid r price) w) !! r
     = Some (filled now w o price)
  /\ (Order.side o = LONG ->
        price <= execution_price w o price
        /\ Order.slippage (filled now w o price)
           = (execution_price w o price - price) * Order.quantity o)
  /\ (Order.side o <> LONG ->
        execution_price w o price <= price
        /\ Order.slippage (filled now w o price)
           = (price - execution_price w o price) * Order.quantity o).
Proof.
  intros Hr Hsr Hp Hout.
  assert (Hslip : 0 <= price * Portfolio.slippage_rate (self w))
    by (by apply Qcmult_nonneg_nonneg).
  destruct (execute_order_costs now tid r price w)
    as [(_ & _ & _ & Hf) | [(o0 & _ & _ & _ & _ & _ & Hf)
                           | (o0 & Hr0 & Hst & Hh & _)]];
    try congruence.
  rewrite Hr in Hr0. injection Hr0 as <-.
  split; [done|]. split.
  { rewrite Hh. apply list_lookup_insert_eq. by eapply lookup_lt_Some. }
  unfold filled, execution_price. simpl. split; intros Hside.
  - rewrite (bool_decide_eq_true_2 _ Hside). split; [|ring].
    apply (Qcplus_le_mono_l 0 (price * Portfolio.slippage_rate (self w)) price)
      in Hslip.
    by rewrite Qcplus_0_r in Hslip.
  - rewrite (bool_decide_eq_false_2 _ Hside). split; [|ring].
    apply (Qcplus_le_mono_r _ _ (price * Portfolio.slippage_rate (self w))).
    replace (price - price * Portfolio.slippage_rate (self w)
             + price * Portfolio.slippage_rate (self w)) with price by ring.
    apply (Qcplus_le_mono_l 0 (price * Portfolio.slippage_rate (self w)) price)
      in Hslip.
    by rewrite Qcplus_0_r in Hslip.
Qed.

Lemma successful_execution_fills_order_witness :
  Order.status first_buy = PENDING
  /\ heap (after (execute_order 2%Z "TRADE-0" 0%nat (dec 100 1)) first_buy_world)
       !! 0%nat
     = Some (filled 2%Z first_buy_world first_buy (dec 100 1))
  /\ (Order.side first_buy = LONG ->
        dec 100 1 <= execution_price first_buy_world first_buy (dec 100 1)
        /\ Order.slippage (filled 2%Z first_buy_world first_buy (dec 100 1))
           = (execution_price first_buy_world first_buy (dec 100 1) - dec 100 1)
             * Order.quantity first_buy)
  /\ (Order.side first_buy <> LONG ->
        execution_price first_buy_world first_buy (dec 100 1) <= dec 100 1
        /\ Order.slippage (filled 2%Z first_buy_world first_buy (dec 100 1))
           = (dec 100 1 - execution_price first_buy_world first_buy (dec 100 1))
             * Order.quantity first_buy).
Proof.
  apply (successful_execution_fills_order 2%Z "TRADE-0" 0%nat (dec 100 1)
           first_buy_world first_buy).
  - reflexivity.
  - vm_compute. discriminate.
  - vm_compute. discriminate.
  - vm_compute. reflexivity.
Defined.

(** ** The cost counters *)

Lemma sum_commissions_app l1 l2 :
  sum_commissions (l1 ++ l2) = sum_commissions l1 + sum_commissions l2.
Proof.
  induction l1 as [|o l1 IH]; simpl; [by rewrite Qcplus_0_l|].
  rewrite IH. ring.
Qed.

Lemma sum_slippages_app l1 l2 :
  sum_slippages (l1 ++ l2) = sum_slippages l1 + sum_slippages l2.
Proof.
  induction l1 as [|o l1 IH]; simpl; [by rewrite Qcplus_0_l|].
  rewrite IH. ring.
Qed.

Lemma sum_commissions_insert l : forall (r : nat) o x,
  l !! r = Some o ->
  sum_commissions (<[r := x]> l)
  = sum_commissions l - Order.commission o + Order.commission x.
Proof.
  induction l as [|y l IH]; intros r o x Hr; [done|].
  destruct r as [|r]; simpl in *.
  - injection Hr as ->. ring.
  - rewrite (IH r o x Hr). ring.
Qed.

Lemma sum_slippages_insert l : forall (r : nat) o x,
  l !! r = Some o ->
  sum_slippages (<[r := x]> l)
  = sum_slippages l - Order.slippage o + Order.slippage x.
Proof.
  induction l as [|y l IH]; intros r o x Hr; [done|].
  destruct r as [|r]; simpl in *.
  - injection Hr as ->. ring.
  - rewrite (IH r o x Hr). ring.
Qed.

Lemma alter_as_insert {A} (f : A -> A) (l : list A) : forall (r : nat) x,
  l !! r = Some x -> alter f r l = <[r := f x]> l.
Proof.
  induction l as [|y l IH]; intros r x Hr; [done|].
  destruct r as [|r]; simpl in *.
  - by injection Hr as ->.
  - f_equal. by apply IH.
Qed.

Lemma execute_order_keeps_books now tid r price w :
  unfilled_orders_cost_nothing w ->
  counters_match_orders w ->
  unfilled_orders_cost_nothing (after (execute_order now tid r price) w)
  /\ counters_match_orders (after (execute_order now tid r price) w).
Proof.
  intros Hzero [Hc Hs].
  destruct (execute_order_costs now tid r price w)
    as [(Hh & Htc & Hts & _) | [(o & Hr & Hst & Hh & Htc & Hts & _)
                               | (o & Hr & Hst & Hh & Htc & Hts & _)]].
  - split.
    + intros r2 o2. rewrite Hh. apply Hzero.
    + split; rewrite Hh; congruence.
  - assert (Hunfilled : Order.status o <> FILLED) by (by rewrite Hst).
    destruct (Hzero r o Hr Hunfilled) as [Hc0 Hs0].
    rewrite (alter_as_insert _ _ r o Hr) in Hh. split.
    + intros r2 o2. rewrite Hh. intros Ho2 Hn.
      apply list_lookup_insert_Some in Ho2 as [(<- & <- & _) | [_ Ho2]].
      * done.
      * by apply (Hzero r2).
    + split; rewrite Hh.
      * rewrite Htc, Hc, (sum_commissions_insert _ r o _ Hr). simpl. ring.
      * rewrite Hts, Hs, (sum_slippages_insert _ r o _ Hr). simpl. ring.
  - assert (Hunfilled : Order.status o <> FILLED) by (by rewrite Hst).
    destruct (Hzero r o Hr Hunfilled) as [Hc0 Hs0]. split.
    + intros r2 o2. rewrite Hh. intros Ho2 Hn.
      apply list_lookup_insert_Some in Ho2 as [(<- & <- & _) | [_ Ho2]].
      * by destruct Hn.
      * by apply (Hzero r2).
    + split; rewrite Hh.
      * rewrite Htc, Hc, (sum_commissions_insert _ r o _ Hr), Hc0. simpl. ring.
      * rewrite Hts, Hs, (sum_slippages_insert _ r o _ Hr), Hs0. simpl. ring.
Qed.

Lemma create_order_keeps_books oid now sym aid side q ty lim w :
  unfilled_orders_cost_nothing w ->
  counters_match_orders w ->
  unfilled_orders_cost_nothing (after (create_order oid now sym aid side q ty lim) w)
  /\ counters_match_orders (after (create_order oid now sym aid side q ty lim) w).
Proof.
  intros Hzero [Hc Hs]. unfold create_order, Order.new. unfold_m.
  destruct (_ && _); simpl; [|done]. split.
  - intros r o Ho Hn. apply lookup_app_Some in Ho as [Ho | [_ Ho]].
    + by apply (Hzero r).
    + apply list_lookup_singleton_Some in Ho as [_ <-]. done.
  - split; simpl.
    + rewrite sum_commissions_app, Hc. simpl. ring.
    + rewrite sum_slippages_app, Hs. simpl. ring.
Qed.

(** X9. The cost counters agree with the order objects.  In every state
    that a session of [create_order]/[execute_order] calls reaches (calls
    that raised included), [total_commissions] is the sum of the
    commissions held by the orders and [total_slippage] the sum of their
    slippage costs, and an order that is not FILLED carries neither. *)
Theorem counters_agree_with_orders ic cr sr calls :
  counters_match_orders (session calls (init ic cr sr))
  /\ unfilled_orders_cost_nothing (session calls (init ic cr sr)).
Proof.
  induction calls as [|c calls [IHc IHz]] using rev_ind.
  - split; [done|]. intros r o Ho. simpl in Ho. by rewrite lookup_nil in Ho.
  - rewrite session_snoc.
    destruct c as [oid now sym aid side q ty lim | now tid r price]; simpl.
    + destruct (create_order_keeps_books oid now sym aid side q ty lim _ IHz IHc).
      done.
    + destruct (execute_order_keeps_books now tid r price _ IHz IHc). done.
Qed.

(** In the session that ends in the raising full close, both counters
    still match the two filled orders. *)
Example counters_after_failed_close :
  let w := after (execute_order 4%Z "TRADE-1" 1%nat (dec 130 1))
                 costly_round_trip_world in
  Portfolio.total_commissions (self w) = sum_commissions (heap w)
  /\ Portfolio.total_slippage (self w) = sum_slippages (heap w)
  /\ sum_slippages (heap w) = dec 5 1 * (dec 100 1 + dec 130 1) * dec 5 10000.
Proof.
  cbv zeta. repeat split; apply Qc_is_canon; vm_compute; reflexivity.
Qed.

(** ** Valuation *)

Lemma add_priced_contribution prices acc p :
  add_priced prices acc p = acc + contribution prices p.
Proof.
  unfold contribution, add_priced.
  case_bool_decide; [|ring].
  destruct (prices !! Position.symbol p); ring.
Qed.

Lemma foldl_add_priced prices ps : forall acc,
  foldl (add_priced prices) acc ps = acc + total_contribution prices ps.
Proof.
  induction ps as [|p ps IH]; intros acc; simpl; [ring|].
  rewrite IH, add_priced_contribution. ring.
Qed.

Lemma positions_value_total prices w :
  positions_value prices w = total_contribution prices (position_values w).
Proof. unfold positions_value. rewrite foldl_add_priced. ring. Qed.

Lemma total_contribution_perm prices ps1 ps2 :
  ps1 ≡ₚ ps2 -> total_contribution prices ps1 = total_contribution prices ps2.
Proof.
  induction 1 as [|p l1 l2 _ IH|p q l|l1 l2 l3 _ IH1 _ IH2]; simpl.
  - done.
  - by rewrite IH.
  - ring.
  - by rewrite IH1.
Qed.

Lemma contribution_nonneg prices p :
  prices_nonneg prices -> 0 <= contribution prices p.
Proof.
  intros Hp. unfold contribution, add_priced.
  case_bool_decide as Hq; [|done].
  destruct (prices !! Position.symbol p) as [price|] eqn:E; [|done].
  rewrite Qcplus_0_l. apply Qcmult_nonneg_nonneg.
  - by apply Qclt_le_weak.
  - by apply (Hp _ _ E).
Qed.

Lemma total_contribution_nonneg prices ps :
  prices_nonneg prices -> 0 <= total_contribution prices ps.
Proof.
  intros Hp. induction ps as [|p ps IH]; simpl; [done|].
  apply Qcplus_nonneg_nonneg; [by apply contribution_nonneg | done].
Qed.

Lemma total_contribution_no_prices ps : total_contribution ∅ ps = 0.
Proof.
  induction ps as [|p ps IH]; simpl; [done|]. rewrite IH.
  unfold contribution, add_priced. rewrite lookup_empty.
  case_bool_decide; ring.
Qed.

(** X10. The total value is cash plus what the priced open positions are
    worth: with non-negative prices it is never below cash, and with no
    prices supplied it is cash (a position without a price counts for
    nothing, not for its cost). *)
Theorem total_value_at_least_cash prices w :
  prices_nonneg prices ->
  Portfolio.cash (self w) <= get_total_value prices w
  /\ get_total_value ∅ w = Portfolio.cash (self w).
Proof.
  intros Hp. unfold get_total_value. rewrite !positions_value_total. split.
  - rewrite <- (Qcplus_0_r (Portfolio.cash (self w))) at 1.
    apply Qcplus_le_mono_l. by apply total_contribution_nonneg.
  - rewrite total_contribution_no_prices. ring.
Qed.

Lemma total_value_at_least_cash_witness :
  Portfolio.cash (self holding_world)
    <= get_total_value {["AAPL" := dec 130 1]} holding_world
  /\ get_total_value ∅ holding_world = Portfolio.cash (self holding_world).
Proof.
  apply total_value_at_least_cash.
  intros s price Hs. apply lookup_singleton_Some in Hs as [_ <-].
  vm_compute. discriminate.
Defined.

(** X11. Opening a position costs exactly its frictions.  When a buy
    that cash covers opens a new position and the prices
    carry the order's symbol at the current price, the total value after
    the fill is the total value before it minus the order's commission
    and slippage cost. *)
Theorem opening_buy_costs_its_frictions now tid r price prices w o :
  heap w !! r = Some o ->
  Order.status o = PENDING ->
  Order.side o = LONG ->
  gate_open o price ->
  0 < Order.quantity o ->
  get_position (Order.symbol o) (Order.algorithm_id o) w = None ->
  trade_value w o price + commission_due w o price <= Portfolio.cash (self w) ->
  0 <= execution_price w o price ->
  prices !! Order.symbol o = Some price ->
  get_total_value prices (after (execute_order now tid r price) w)
  = get_total_value prices w
    - Order.commission (filled now w o price)
    - Order.slippage (filled now w o price).
Proof.
  intros Hr Hst Hside Hg Hq Hnone Hcash Hep Hprice.
  unfold get_total_value. rewrite !positions_value_total.
  unfold position_values, after.
  rewrite (execute_order_through_gate _ _ _ _ _ _ Hr Hst Hg).
  unfold get_position in Hnone.
  unfold filled, commission_due, trade_value, execution_price in *.
  rewrite (bool_decide_eq_true_2 _ Hside) in *.
  unfold fill_order. unfold_m. simpl.
  rewrite (bool_decide_eq_true_2 _ Hside). simpl.
  rewrite bool_decide_eq_false_2 by (by apply Qcle_not_lt). simpl.
  unfold _update_position. unfold_m. simpl. rewrite Hside. simpl.
  rewrite Hnone. unfold Position.new.
  rewrite (bool_decide_eq_true_2 (0 <= Order.quantity o))
    by (by apply Qclt_le_weak).
  rewrite (bool_decide_eq_true_2 _ Hep). simpl.
  match goal with
  | |- context [map_to_list (<[?k := ?v]> ?m)] =>
      rewrite (total_contribution_perm prices
                 (map_to_list (<[k := v]> m)).*2 (v :: (map_to_list m).*2))
  end.
  2:{ rewrite map_to_list_insert by done. done. }
  simpl. unfold contribution at 1. unfold add_priced. simpl.
  rewrite (bool_decide_eq_true_2 _ Hq), Hprice. ring.
Qed.

Lemma opening_buy_costs_its_frictions_witness :
  get_total_value {["AAPL" := dec 100 1]}
    (after (execute_order 2%Z "TRADE-0" 0%nat (dec 100 1)) first_buy_world)
  = get_total_value {["AAPL" := dec 100 1]} first_buy_world
    - Order.commission (filled 2%Z first_buy_world first_buy (dec 100 1))
    - Order.slippage (filled 2%Z first_buy_world first_buy (dec 100 1)).
Proof.
  apply (opening_buy_costs_its_frictions 2%Z "TRADE-0" 0%nat (dec 100 1)
           {["AAPL" := dec 100 1]} first_buy_world first_buy).
  - reflexivity.
  - reflexivity.
  - reflexivity.
  - left. reflexivity.
  - vm_compute. reflexivity.
  - vm_compute. reflexivity.
  - vm_compute. discriminate.
  - vm_compute. discriminate.
  - vm_compute. reflexivity.
Defined.

(** X12. [get_snapshot] reads the ledger and moves only the watermark:
    whether it returns or raises, the order objects, cash, positions,
    orders, trades, counters and the log are what they were, and the peak
    value does not go down.  Unless the initial capital is zero (the call
    then raises before it gets there), the peak value afterwards is at
    least the total value at the supplied prices. *)
Theorem snapshot_moves_only_the_watermark now prices w :
  let w' := after (get_snapshot now prices) w in
  heap w' = heap w
  /\ console w' = console w
  /\ Portfolio.positions (self w') = Portfolio.positions (self w)
  /\ same_ledger_but_positions (self w') (self w)
  /\ Portfolio.peak_value (self w) <= Portfolio.peak_value (self w')
  /\ (Portfolio.initial_capital (self w) <> 0 ->
        get_total_value prices w <= Portfolio.peak_value (self w')).
Proof.
  cbv zeta. unfold get_snapshot, get_total_value. unfold_m. simpl.
  case_bool_decide as Hic; simpl.
  { repeat split; try done; try apply Qcle_refl. }
  destruct (bool_decide (_ < _)) eqn:Hpeak; simpl.
  - apply bool_decide_eq_true_1 in Hpeak.
    destruct (PortfolioSnapshot.new _ _ _ _ _ _ _); simpl;
      (repeat split; try done; try (by apply Qclt_le_weak);
       try (intros _; apply Qcle_refl)).
  - apply bool_decide_eq_false_1 in Hpeak. apply Qcnot_lt_le in Hpeak.
    destruct (PortfolioSnapshot.new _ _ _ _ _ _ _); simpl;
      (repeat split; try done; try apply Qcle_refl).
Qed.

(** X13. With an initial capital of zero, [get_snapshot] raises
    [ZeroDivisionError] (the P&L percentage divides by the initial
    capital) and leaves everything as it was. *)
Theorem snapshot_of_zero_capital now prices w :
  Portfolio.initial_capital (self w) = 0 ->
  get_snapshot now prices w = (Raised ZeroDivisionError, w).
Proof.
  intros Hic. unfold get_snapshot. unfold_m. simpl.
  rewrite (bool_decide_eq_true_2 _ Hic). done.
Qed.

Lemma snapshot_of_zero_capital_witness :
  get_snapshot 1%Z ∅ (init 0 (dec 1 1000) (dec 5 10000))
  = (Raised ZeroDivisionError, init 0 (dec 1 1000) (dec 5 10000)).
Proof. apply snapshot_of_zero_capital. reflexivity. Defined.

(** X14. With a non-zero initial capital, non-negative cash and prices,
    and a positive total value, [get_snapshot] returns: the snapshot's
    total value is what [get_total_value] gives at the same prices, its
    cash is the ledger's, its P&L is the total value minus the initial
    capital, in percent of the initial capital, and it counts the
    positions with a positive quantity. *)
Theorem snapshot_returns_the_valuation now prices w :
  Portfolio.initial_capital (self w) <> 0 ->
  0 <= Portfolio.cash (self w) ->
  prices_nonneg prices ->
  0 < get_total_value prices w ->
  exists s,
    outcome (get_snapshot now prices) w = Returned s
    /\ PortfolioSnapshot.total_value s = get_total_value prices w
    /\ PortfolioSnapshot.cash s = Portfolio.cash (self w)
    /\ PortfolioSnapshot.positions_value s
       = get_total_value prices w - Portfolio.cash (self w)
    /\ PortfolioSnapshot.total_pnl s
       = get_total_value prices w - Portfolio.initial_capital (self w)
    /\ PortfolioSnapshot.total_pnl_percent s
       = PortfolioSnapshot.total_pnl s / Portfolio.initial_capital (self w)
         * Qc_of_Z 100
    /\ PortfolioSnapshot.num_positions s = open_positions w
    /\ PortfolioSnapshot.timestamp s = now.
Proof.
  intros Hic Hcash Hp Htotal.
  assert (Hpv : 0 <= positions_value prices w).
  { rewrite positions_value_total. by apply total_contribution_nonneg. }
  unfold get_total_value in *. unfold get_snapshot. unfold_m. simpl.
  rewrite (bool_decide_eq_false_2 _ Hic). simpl.
  unfold PortfolioSnapshot.new.
  rewrite (bool_decide_eq_true_2 _ Hcash), (bool_decide_eq_true_2 _ Hpv),
    (bool_decide_eq_true_2 _ Htotal). simpl.
  destruct (bool_decide (_ < _)); simpl;
    (eexists; split; [reflexivity|]; simpl; repeat split; ring).
Qed.

Lemma snapshot_returns_the_valuation_witness :
  exists s,
    outcome (get_snapshot 9%Z {["AAPL" := dec 130 1]}) holding_world = Returned s
    /\ PortfolioSnapshot.total_value s
       = get_total_value {["AAPL" := dec 130 1]} holding_world
    /\ PortfolioSnapshot.cash s = Portfolio.cash (self holding_world)
    /\ PortfolioSnapshot.positions_value s
       = get_total_value {["AAPL" := dec 130 1]} holding_world
         - Portfolio.cash (self holding_world)
    /\ PortfolioSnapshot.total_pnl s
       = get_total_value {["AAPL" := dec 130 1]} holding_world
         - Portfolio.initial_capital (self holding_world)
    /\ PortfolioSnapshot.total_pnl_percent s
       = PortfolioSnapshot.total_pnl s
         / Portfolio.initial_capital (self holding_world) * Qc_of_Z 100
    /\ PortfolioSnapshot.num_positions s = open_positions holding_world
    /\ PortfolioSnapshot.timestamp s = 9%Z.
Proof.
  apply snapshot_returns_the_valuation.
  - intros H. apply (f_equal this) in H. vm_compute in H. discriminate H.
  - vm_compute. discriminate.
  - intros s price Hs. apply lookup_singleton_Some in Hs as [_ <-].
    vm_compute. discriminate.
  - vm_compute. reflexivity.
Defined.

(** In numbers: 5 shares marked at 130 next to cash of 499.24975. *)
Example holding_snapshot_in_numbers :
  get_total_value {["AAPL" := dec 130 1]} holding_world
  = dec 1000 1 - (dec 50025 100 + dec 50025 100000) + dec 650 1
  /\ open_positions holding_world = 1%nat.
Proof.
  split; [apply Qc_is_canon; vm_compute; reflexivity|].
  vm_compute. reflexivity.
Qed.

Lemma execute_order_initial_capital now tid r price w :
  Portfolio.initial_capital (self (after (execute_order now tid r price) w))
  = Portfolio.initial_capital (self w).
Proof.
  assert (Hfill : forall o,
    Portfolio.initial_capital (self (after (fill_order now tid r o price) w))
    = Portfolio.initial_capital (self w)).
  { intros o. unfold fill_order. unfold_m. simpl.
    destruct (_ && _); simpl; [done|].
    match goal with
    | |- context [_update_position ?t ?x ?v] =>
        pose proof (update_position_frame t x v) as [_ Hs];
        unfold after in Hs;
        destruct (_update_position t x v) as [[[]|e] w'] eqn:E; simpl in *
    end; destruct Hs as (-> & _); done. }
  unfold execute_order. unfold_m.
  destruct (heap w !! r) as [o|]; simpl; [|done].
  case_bool_decide; simpl; [done|].
  case_bool_decide; simpl; [|apply Hfill].
  destruct (Order.limit_price o); simpl; [|done].
  destruct (_ && _); simpl; [done|].
  destruct (_ && _); simpl; [done|]. apply Hfill.
Qed.

Lemma session_initial_capital ic cr sr calls :
  Portfolio.initial_capital (self (session calls (init ic cr sr))) = ic.
Proof.
  induction calls as [|c calls IH] using rev_ind; [done|].
  rewrite session_snoc.
  destruct c as [oid now sym aid side q ty lim | now tid r price]; simpl.
  - destruct (create_order_effect oid now sym aid side q ty lim
                (session calls (init ic cr sr)))
      as [-> | (o & _ & _ & _ & ->)]; done.
  - by rewrite execute_order_initial_capital.
Qed.

(** X15. A portfolio that is worth nothing cannot be snapshotted: with a
    non-zero initial capital, [get_snapshot] raises pydantic's validation
    error whenever the total value at the supplied prices is zero or less
    ([total_value] is declared [gt=0]), for instance when all cash is
    invested and the feed has no price for what is held. *)
Theorem worthless_portfolio_has_no_snapshot now prices w :
  Portfolio.initial_capital (self w) <> 0 ->
  get_total_value prices w <= 0 ->
  outcome (get_snapshot now prices) w = Raised ValidationError.
Proof.
  intros Hic Hzero.
  unfold get_snapshot, get_total_value in *. unfold_m. simpl.
  rewrite (bool_decide_eq_false_2 _ Hic). simpl.
  unfold PortfolioSnapshot.new.
  rewrite (bool_decide_eq_false_2 (0 < _)) by (by apply Qcle_not_lt).
  rewrite !andb_false_r.
  destruct (bool_decide (_ < _)); done.
Qed.

Lemma worthless_portfolio_has_no_snapshot_witness :
  outcome (get_snapshot 3%Z ∅) (session all_in_calls (init (dec 100 1) 0 0))
  = Raised ValidationError.
Proof.
  apply worthless_portfolio_has_no_snapshot.
  - intros H. apply (f_equal this) in H. vm_compute in H. discriminate H.
  - vm_compute. discriminate.
Defined.

(** All of 100 spent on one share: cash 0, and nothing to mark it at. *)
Example all_in_is_worth_nothing_unpriced :
  Portfolio.cash (self (session all_in_calls (init (dec 100 1) 0 0))) = 0
  /\ get_total_value ∅ (session all_in_calls (init (dec 100 1) 0 0)) = 0
  /\ get_total_value {["AAPL" := dec 100 1]}
       (session all_in_calls (init (dec 100 1) 0 0)) = dec 100 1.
Proof. repeat split; apply Qc_is_canon; vm_compute; reflexivity. Qed.

Lemma min_with_zero_nonpos d : min_with_zero d <= 0.
Proof.
  unfold min_with_zero. case_bool_decide as H; [apply Qcle_refl|].
  by apply Qcnot_lt_le.
Qed.

Lemma min_with_zero_of_nonneg d : 0 <= d -> min_with_zero d = 0.
Proof.
  intros Hd. unfold min_with_zero. case_bool_decide as H; [done|].
  apply Qcle_antisym; [by apply Qcnot_lt_le | done].
Qed.

(** X16. [get_max_drawdown] always returns, changes nothing, and its
    result is never positive: the guard on the peak value keeps the
    division safe.  The result is 0 when the peak value is zero or less,
    and when cash plus the marked positions reach the peak. *)
Theorem max_drawdown_never_positive current_price w :
  exists d,
    get_max_drawdown current_price w = (Returned d, w)
    /\ d <= 0
    /\ (Portfolio.peak_value (self w) <= 0 -> d = 0)
    /\ (Portfolio.peak_value (self w)
          <= Portfolio.cash (self w) + marked_value current_price w -> d = 0).
Proof.
  unfold get_max_drawdown. unfold_m. simpl.
  case_bool_decide as Hpeak; simpl.
  { exists 0. repeat split; try done; try apply Qcle_refl. }
  apply Qcnot_le_lt in Hpeak.
  rewrite bool_decide_eq_false_2 by (by apply Qc_pos_ne_0). simpl.
  eexists. split; [reflexivity|]. split; [apply min_with_zero_nonpos|].
  split.
  - intros Hle. by apply Qcle_not_lt in Hle.
  - intros Hreach. apply min_with_zero_of_nonneg.
    apply Qcmult_nonneg_nonneg; [|vm_compute; discriminate].
    unfold Qcdiv. apply Qcmult_nonneg_nonneg.
    + by apply Qc_sub_nonneg.
    + apply Qclt_le_weak. by apply Qcinv_pos.
Qed.

(** The drawdown of the holding portfolio against its peak of 1000, the
    position being marked at its average price of 100.05: the commission
    of the buy, 0.50025, is 0.050025 percent. *)
Example holding_drawdown :
  exists d,
    outcome (get_max_drawdown (fun _ => None)) holding_world = Returned d
    /\ d = - dec 50025 1000000.
Proof.
  eexists. split; [vm_compute; reflexivity|].
  apply Qc_is_canon. vm_compute. reflexivity.
Qed.

(** X17. [reset] undoes a session: after any sequence of
    [create_order]/[execute_order] calls on a fresh portfolio, [reset]
    gives back the portfolio as it was constructed (cash and peak value at
    the initial capital, no positions, orders or trades, counters at 0,
    the rates as given).  The order objects themselves are not touched. *)
Theorem reset_restores_initial_portfolio ic cr sr calls :
  outcome reset (session calls (init ic cr sr)) = Returned tt
  /\ self (after reset (session calls (init ic cr sr))) = self (init ic cr sr)
  /\ heap (after reset (session calls (init ic cr sr)))
     = heap (session calls (init ic cr sr)).
Proof.
  unfold reset. unfold_m. simpl.
  rewrite session_initial_capital.
  destruct (session_rates calls (init ic cr sr)) as [-> ->]. done.
Qed.

(** ** More fills *)

(** X18. A pending buy that passes the limit check, meets a position of
    non-negative quantity and is covered by cash is filled: the call
    returns [True], the position's quantity grows by the order's, its
    average price becomes the cost-weighted average of the old average
    and the execution price, its symbol, strategy and opening time stay,
    and cash goes down by trade value plus commission. *)
Theorem buy_adds_to_open_position now tid r price w o p :
  heap w !! r = Some o ->
  Order.status o = PENDING ->
  Order.side o = LONG ->
  gate_open o price ->
  0 < Order.quantity o ->
  get_position (Order.symbol o) (Order.algorithm_id o) w = Some p ->
  0 <= Position.quantity p ->
  trade_value w o price + commission_due w o price <= Portfolio.cash (self w) ->
  let w' := after (execute_order now tid r price) w in
  outcome (execute_order now tid r price) w = Returned true
  /\ Portfolio.positions (self w')
     = <[position_key (Order.algorithm_id o) (Order.symbol o) :=
           Position.mk (Position.symbol p) (Position.algorithm_id p) LONG
             (Position.quantity p + Order.quantity o)
             ((Position.average_price p * Position.quantity p
               + execution_price w o price * Order.quantity o)
              / (Position.quantity p + Order.quantity o))
             (Position.opened_at p)]>
         (Portfolio.positions (self w))
  /\ Portfolio.cash (self w')
     = Portfolio.cash (self w) - (trade_value w o price + commission_due w o price)
  /\ heap w' = <[r := filled now w o price]> (heap w).
Proof.
  intros Hr Hst Hside Hg Hq Hp Hqp Hcash w'. subst w'.
  unfold outcome, after.
  rewrite (execute_order_through_gate _ _ _ _ _ _ Hr Hst Hg).
  unfold get_position in Hp.
  unfold filled, commission_due, trade_value, execution_price in *.
  rewrite (bool_decide_eq_true_2 _ Hside) in *.
  unfold fill_order. unfold_m. simpl.
  rewrite (bool_decide_eq_true_2 _ Hside). simpl.
  rewrite bool_decide_eq_false_2 by (by apply Qcle_not_lt). simpl.
  unfold _update_position. unfold_m. simpl. rewrite Hside. simpl.
  rewrite Hp. simpl.
  rewrite bool_decide_eq_false_2.
  2:{ apply Qc_pos_ne_0. by apply Qcplus_nonneg_pos. }
  simpl. unfold_m. simpl. rewrite !insert_insert_eq. done.
Qed.

Lemma buy_adds_to_open_position_witness :
  let w' := after (execute_order 5%Z "TRADE-1" 1%nat (dec 120 1)) second_buy_world in
  outcome (execute_order 5%Z "TRADE-1" 1%nat (dec 120 1)) second_buy_world
    = Returned true
  /\ Portfolio.positions (self w')
     = <[position_key "algo" "AAPL" :=
           Position.mk "AAPL" "algo" LONG (dec 5 1 + dec 3 1)
             ((Position.average_price held_position * dec 5 1
               + execution_price second_buy_world buy_of_3 (dec 120 1) * dec 3 1)
              / (dec 5 1 + dec 3 1))
             (Some 2%Z)]>
         (Portfolio.positions (self second_buy_world))
  /\ Portfolio.cash (self w')
     = Portfolio.cash (self second_buy_world)
       - (trade_value second_buy_world buy_of_3 (dec 120 1)
          + commission_due second_buy_world buy_of_3 (dec 120 1))
  /\ heap w' = <[1%nat := filled 5%Z second_buy_world buy_of_3 (dec 120 1)]>
                 (heap second_buy_world).
Proof.
  apply (buy_adds_to_open_position 5%Z "TRADE-1" 1%nat (dec 120 1)
           second_buy_world buy_of_3 held_position).
  - reflexivity.
  - reflexivity.
  - reflexivity.
  - left. reflexivity.
  - vm_compute. reflexivity.
  - vm_compute. reflexivity.
  - vm_compute. discriminate.
  - vm_compute. discriminate.
Defined.

(** X19. A partial sell costs exactly its frictions.  When a sell takes
    less than the position holds
    and the prices carry the position's symbol at the current price, the
    total value after the fill is the total value before it minus the
    order's commission and slippage cost. *)
Theorem partial_sell_costs_its_frictions now tid r price prices w o p :
  heap w !! r = Some o ->
  Order.status o = PENDING ->
  Order.side o = SHORT ->
  gate_open o price ->
  0 < Order.quantity o ->
  get_position (Order.symbol o) (Order.algorithm_id o) w = Some p ->
  Order.quantity o < Position.quantity p ->
  prices !! Position.symbol p = Some price ->
  get_total_value prices (after (execute_order now tid r price) w)
  = get_total_value prices w
    - Order.commission (filled now w o price)
    - Order.slippage (filled now w o price).
Proof.
  intros Hr Hst Hside Hg Hq Hp Hlt Hprice.
  assert (Hleft : 0 < Position.quantity p - Order.quantity o).
  { apply (Qcplus_lt_mono_r _ _ (Order.quantity o)).
    replace (Position.quantity p - Order.quantity o + Order.quantity o)
      with (Position.quantity p) by ring.
    by rewrite Qcplus_0_l. }
  assert (Hheld : 0 < Position.quantity p) by exact (Qclt_trans _ _ _ Hq Hlt).
  unfold get_total_value. rewrite !positions_value_total.
  unfold position_values, after.
  rewrite (execute_order_through_gate _ _ _ _ _ _ Hr Hst Hg).
  unfold get_position in Hp.
  unfold filled, commission_due, trade_value, execution_price in *.
  rewrite (bool_decide_eq_false_2 (Order.side o = LONG)) in * by (by rewrite Hside).
  unfold fill_order. unfold_m. simpl.
  rewrite (bool_decide_eq_false_2 (Order.side o = LONG)) by (by rewrite Hside).
  simpl. unfold _update_position. unfold_m. simpl. rewrite Hside, Hp. simpl.
  rewrite bool_decide_eq_false_2 by (by apply Qclt_not_le). simpl.
  set (key := position_key (Order.algorithm_id o) (Order.symbol o)) in *.
  set (m := Portfolio.positions (self w)) in *.
  set (p' := Position.set_quantity (Position.quantity p - Order.quantity o) p).
  rewrite (total_contribution_perm prices (map_to_list (<[key := p']> m)).*2
             (p' :: (map_to_list (delete key m)).*2)).
  2:{ rewrite <- insert_delete_eq.
      rewrite map_to_list_insert by (by rewrite lookup_delete_eq). done. }
  rewrite (total_contribution_perm prices (map_to_list m).*2
             (p :: (map_to_list (delete key m)).*2)).
  2:{ by rewrite <- (map_to_list_delete m key p Hp). }
  simpl. unfold contribution, add_priced. subst p'. simpl.
  rewrite (bool_decide_eq_true_2 _ Hleft), (bool_decide_eq_true_2 _ Hheld), Hprice.
  ring.
Qed.

Lemma partial_sell_costs_its_frictions_witness :
  get_total_value {["AAPL" := dec 130 1]}
    (after (execute_order 5%Z "TRADE-1" 1%nat (dec 130 1)) holding_world)
  = get_total_value {["AAPL" := dec 130 1]} holding_world
    - Order.commission (filled 5%Z holding_world sell_of_2 (dec 130 1))
    - Order.slippage (filled 5%Z holding_world sell_of_2 (dec 130 1)).
Proof.
  apply (partial_sell_costs_its_frictions 5%Z "TRADE-1" 1%nat (dec 130 1)
           {["AAPL" := dec 130 1]} holding_world sell_of_2 held_position).
  - reflexivity.
  - reflexivity.
  - reflexivity.
  - left. reflexivity.
  - vm_compute. reflexivity.
  - vm_compute. reflexivity.
  - vm_compute. reflexivity.
  - vm_compute. reflexivity.
Defined.

(** X20. An order whose side is NONE (the enumeration has it and
    [create_order] accepts it) is executed like a sell that touches no
    position: when it is pending and passes the limit check the call
    returns [True], the order is FILLED at the sell-side execution price,
    cash is credited with trade value minus commission, and the position
    book and the trades are unchanged. *)
Theorem sideless_order_credits_cash now tid r price w o :
  heap w !! r = Some o ->
  Order.status o = PENDING ->
  Order.side o = NONE ->
  gate_open o price ->
  let w' := after (execute_order now tid r price) w in
  outcome (execute_order now tid r price) w = Returned true
  /\ Portfolio.positions (self w') = Portfolio.positions (self w)
  /\ Portfolio.trades (self w') = Portfolio.trades (self w)
  /\ Portfolio.cash (self w')
     = Portfolio.cash (self w) + (trade_value w o price - commission_due w o price)
  /\ execution_price w o price
     = price - price * Portfolio.slippage_rate (self w)
  /\ heap w' = <[r := filled now w o price]> (heap w).
Proof.
  intros Hr Hst Hside Hg w'. subst w'.
  unfold outcome, after.
  rewrite (execute_order_through_gate _ _ _ _ _ _ Hr Hst Hg).
  unfold filled, commission_due, trade_value, execution_price in *.
  rewrite (bool_decide_eq_false_2 (Order.side o = LONG)) in * by (by rewrite Hside).
  unfold fill_order. unfold_m. simpl.
  rewrite (bool_decide_eq_false_2 (Order.side o = LONG)) by (by rewrite Hside).
  simpl. unfold _update_position. unfold_m. simpl. rewrite Hside. simpl. done.
Qed.

Lemma sideless_order_credits_cash_witness :
  let w' := after (execute_order 5%Z "TRADE-1" 2%nat (dec 130 1)) second_buy_world in
  outcome (execute_order 5%Z "TRADE-1" 2%nat (dec 130 1)) second_buy_world
    = Returned true
  /\ Portfolio.positions (self w') = Portfolio.positions (self second_buy_world)
  /\ Portfolio.trades (self w') = Portfolio.trades (self second_buy_world)
  /\ Portfolio.cash (self w')
     = Portfolio.cash (self second_buy_world)
       + (trade_value second_buy_world sideless_order (dec 130 1)
          - commission_due second_buy_world sideless_order (dec 130 1))
  /\ execution_price second_buy_world sideless_order (dec 130 1)
     = dec 130 1 - dec 130 1 * Portfolio.slippage_rate (self second_buy_world)
  /\ heap w' = <[2%nat := filled 5%Z second_buy_world sideless_order (dec 130 1)]>
                 (heap second_buy_world).
Proof.
  apply (sideless_order_credits_cash 5%Z "TRADE-1" 2%nat (dec 130 1)
           second_buy_world sideless_order).
  - reflexivity.
  - reflexivity.
  - reflexivity.
  - left. reflexivity.
Defined.

(** * The caller of the ledger *)

Lemma create_market_order_eq oid now sym aid side q w :
  0 < q ->
  create_order oid now sym aid side q MARKET None w
  = (Returned (length (heap w)),
     mkWorld
       (heap w ++ [Order.mk oid aid sym MARKET side q None None PENDING now
                     None 0 0])
       (Portfolio.set_orders (Portfolio.orders (self w) ++ [length (heap w)])
          (self w))
       (console w ++ [(INFO, OrderCreated oid)])).
Proof.
  intros Hq. unfold create_order, Order.new. unfold_m.
  rewrite (bool_decide_eq_true_2 _ Hq). done.
Qed.

Lemma execute_order_raise_keeps_cash now tid r price w e :
  outcome (execute_order now tid r price) w = Raised e ->
  Portfolio.cash (self (after (execute_order now tid r price) w))
  = Portfolio.cash (self w).
Proof.
  assert (Hfill : forall o,
    outcome (fill_order now tid r o price) w = Raised e ->
    Portfolio.cash (self (after (fill_order now tid r o price) w))
    = Portfolio.cash (self w)).
  { intros o. unfold fill_order. unfold_m. simpl.
    destruct (_ && _); simpl; [done|].
    match goal with
    | |- context [_update_position ?t ?x ?v] =>
        pose proof (update_position_frame t x v) as [_ Hs];
        unfold after in Hs;
        destruct (_update_position t x v) as [[[]|e'] w'] eqn:E; simpl in *
    end; [done|]. destruct Hs as (_ & -> & _). done. }
  unfold execute_order, outcome, after in *. unfold_m.
  destruct (heap w !! r) as [o|]; simpl; [|done].
  case_bool_decide; simpl; [done|].
  case_bool_decide; simpl; [|apply Hfill].
  destruct (Order.limit_price o); simpl; [|done].
  destruct (_ && _); simpl; [done|].
  destruct (_ && _); simpl; [done|]. apply Hfill.
Qed.

(** X21. The system cannot sell.  When the ledger is in a state reached
    by [create_order]/[execute_order] calls, a SELL signal for a symbol
    that has a ticker and an open position makes [execute_signals] place a
    sell of the whole position, and its execution raises
    [ZeroDivisionError] out of the loop: the signals after it are not
    handled, nothing is logged by the caller, the sell order is left
    FILLED, the position stays in the book at quantity 0 and cash is not
    credited. *)
Theorem sell_signal_raises mps tickers signal d rest s ic cr sr calls ticker p :
  ledger s = session calls (init ic cr sr) ->
  tickers !! Signal.symbol signal = Some ticker ->
  Signal.signal_type signal = SELL ->
  get_position (Signal.symbol signal) (Signal.algorithm_id signal) (ledger s)
    = Some p ->
  0 < Position.quantity p ->
  let res := execute_signals mps tickers ((signal, d) :: rest) s in
  res.1 = Raised ZeroDivisionError
  /\ journal res.2 = journal s
  /\ get_position (Signal.symbol signal) (Signal.algorithm_id signal)
       (ledger res.2)
     = Some (Position.set_quantity 0 p)
  /\ Portfolio.cash (self (ledger res.2)) = Portfolio.cash (self (ledger s))
  /\ Order.status <$> heap (ledger res.2) !! length (heap (ledger s))
     = Some FILLED.
Proof.
  intros Hs Hticker Htype Hp Hq res. subst res.
  assert (Hinv : session_invariant (ledger s)).
  { rewrite Hs. apply session_invariant_holds, init_invariant. }
  pose proof (create_order_invariant (order_id d) (created d)
                (Signal.symbol signal) (Signal.algorithm_id signal) SHORT
                (Position.quantity p) MARKET None (ledger s) Hinv)
    as (_ & Hentries & _).
  unfold after in Hentries.
  simpl. unfold execute_signal. rewrite Hticker, Htype, Hp.
  rewrite (bool_decide_eq_true_2 _ Hq). unfold on_ledger. cbv zeta.
  rewrite (create_market_order_eq _ _ _ _ _ _ _ Hq) in *. simpl in Hentries.
  set (o := Order.mk (order_id d) (Signal.algorithm_id signal)
              (Signal.symbol signal) MARKET SHORT (Position.quantity p) None
              None PENDING (created d) None 0 0) in *.
  set (w1 := mkWorld (heap (ledger s) ++ [o]) _ _) in *.
  assert (Hr : heap w1 !! length (heap (ledger s)) = Some o).
  { subst w1. simpl. rewrite lookup_app_r by done. by rewrite Nat.sub_diag. }
  destruct (exact_full_close_raises (executed d) (trade_id d)
              (length (heap (ledger s))) (Ticker.price ticker) w1 o p
              Hentries Hr eq_refl eq_refl (or_introl eq_refl) Hp eq_refl)
    as [Hout Hpos].
  pose proof (execute_order_raise_keeps_cash _ _ _ _ _ _ Hout) as Hcash.
  destruct (execute_order_costs (executed d) (trade_id d)
              (length (heap (ledger s))) (Ticker.price ticker) w1)
    as [(_ & _ & _ & Hf) | [(o0 & _ & _ & _ & _ & _ & Hf)
                           | (o0 & Hr0 & _ & Hh & _)]];
    try congruence.
  unfold outcome, after in *.
  destruct (execute_order (executed d) (trade_id d) (length (heap (ledger s)))
              (Ticker.price ticker) w1) as [res w2] eqn:E.
  simpl in *. subst res.
  rewrite E.
  simpl. repeat split; try done.
  rewrite Hh, list_lookup_insert_eq; [done|].
  by eapply lookup_lt_Some.
Qed.

Lemma sell_signal_raises_witness :
  let s := mkSystem
             (session holding_calls_2
                (init (dec 1000 1) (dec 1 1000) (dec 5 10000))) [] in
  let res := execute_signals (dec 2 10) (aapl_at (dec 130 1))
               [(sell_signal, draws_9); (buy_signal, draws_9)] s in
  res.1 = Raised ZeroDivisionError
  /\ journal res.2 = journal s
  /\ get_position "AAPL" "algo" (ledger res.2)
     = Some (Position.set_quantity 0 held_position)
  /\ Portfolio.cash (self (ledger res.2)) = Portfolio.cash (self (ledger s))
  /\ Order.status <$> heap (ledger res.2) !! length (heap (ledger s))
     = Some FILLED.
Proof.
  apply (sell_signal_raises (dec 2 10) (aapl_at (dec 130 1)) sell_signal draws_9
           [(buy_signal, draws_9)]
           (mkSystem (session holding_calls_2
                        (init (dec 1000 1) (dec 1 1000) (dec 5 10000))) [])
           (dec 1000 1) (dec 1 1000) (dec 5 10000) holding_calls_2
           (Ticker.mk "AAPL" (dec 130 1)) held_position).
  - reflexivity.
  - vm_compute. reflexivity.
  - reflexivity.
  - vm_compute. reflexivity.
  - vm_compute. reflexivity.
Defined.




(** In numbers: 20% of 1000 buys one share at 130, and the caller logs
    the purchase. *)
Example buy_signal_in_numbers :
  let s := mkSystem (init (dec 1000 1) (dec 1 1000) (dec 5 10000)) [] in
  let res := execute_signals (dec 2 10) (aapl_at (dec 130 1))
               [(buy_signal, draws_9)] s in
  res.1 = Returned tt
  /\ int_of (dec 1000 1 * dec 2 10 / dec 130 1) = 1%Z
  /\ Position.quantity <$> get_position "AAPL" "algo" (ledger res.2)
     = Some (Qc_of_Z 1)
  /\ journal res.2 = [(INFO, Bought 1 "AAPL" (dec 130 1))].
Proof. vm_compute. repeat split; reflexivity. Qed.
